(** * Alias resolution and query assembly of the SQL-server MCP tools

    A shallow embedding of the alias mappers ([product_aliases.py],
    [enhanced_aliases.py]), of the direct SQL tool and the query suggestion
    of [simple_mcp_tools.py], and of the parse orchestration of
    [ai_query_parser.py], followed by the properties of the specification
    that concern them.

    Python dictionaries keyed by strings are [gmap string _], Python sets
    are [gset string]; text is [string] over ASCII characters. *)

From Stdlib Require Import Ascii String ZArith.
From Stdlib Require Import Floats.PrimFloat Floats.SpecFloat Floats.FloatAxioms.
From stdpp Require Import base option list strings gmap fin_maps fin_sets pretty.

Local Open Scope string_scope.

(** ** Python string primitives used by the sources *)

Module PyStr.

(** [c.lower()] on one ASCII character: only [A]..[Z] move. *)
Definition lower_char (c : ascii) : ascii :=
  let n := nat_of_ascii c in
  if (65 <=? n)%nat && (n <=? 90)%nat then ascii_of_nat (n + 32) else c.

(** [s.lower()] *)
Fixpoint lower (s : string) : string :=
  match s with
  | EmptyString => EmptyString
  | String c s' => String (lower_char c) (lower s')
  end.

(** [c.isspace()] for ASCII: TAB, LF, VT, FF, CR, FS, GS, RS, US, space. *)
Definition isspace (c : ascii) : bool :=
  let n := nat_of_ascii c in
  ((9 <=? n)%nat && (n <=? 13)%nat)
  || ((28 <=? n)%nat && (n <=? 32)%nat).

(** [c.isdigit()] for ASCII, the class [\d]. *)
Definition isdigit (c : ascii) : bool :=
  let n := nat_of_ascii c in (48 <=? n)%nat && (n <=? 57)%nat.

(** [s.startswith(p)] *)
Fixpoint startswith (p s : string) : bool :=
  match p, s with
  | EmptyString, _ => true
  | String a p', String b s' => if Ascii.eqb a b then startswith p' s' else false
  | String _ _, EmptyString => false
  end.

(** [sub in s]: [sub] occurs in [s] as a contiguous substring. *)
Fixpoint contains (sub s : string) : bool :=
  startswith sub s ||
  match s with
  | EmptyString => false
  | String _ s' => contains sub s'
  end.

Fixpoint lstrip (s : string) : string :=
  match s with
  | EmptyString => EmptyString
  | String c s' => if isspace c then lstrip s' else s
  end.

Fixpoint rstrip (s : string) : string :=
  match s with
  | EmptyString => EmptyString
  | String c s' =>
      match rstrip s' with
      | EmptyString => if isspace c then EmptyString else String c EmptyString
      | r => String c r
      end
  end.

(** [s.strip()] *)
Definition strip (s : string) : string := rstrip (lstrip s).

(** [sep.join(l)] *)
Fixpoint join (sep : string) (l : list string) : string :=
  match l with
  | [] => EmptyString
  | [x] => x
  | x :: rest => x +:+ sep +:+ join sep rest
  end.

(** [s.replace(old, new)] for a non-empty [old]: occurrences are replaced
    left to right without overlap; [skip] counts the characters of the
    occurrence just replaced that are still to be passed over. *)
Fixpoint replace_from (old new : string) (skip : nat) (s : string) : string :=
  match s with
  | EmptyString => EmptyString
  | String c s' =>
      match skip with
      | S k => replace_from old new k s'
      | O =>
          if startswith old s
          then new +:+ replace_from old new (String.length old - 1) s'
          else String c (replace_from old new 0 s')
      end
  end.

(** With an empty [old], Python puts [new] before every character and at
    the end. *)
Fixpoint intersperse (new s : string) : string :=
  match s with
  | EmptyString => new
  | String c s' => new +:+ String c (intersperse new s')
  end.

Definition replace (old new s : string) : string :=
  match old with
  | EmptyString => intersperse new s
  | _ => replace_from old new 0 s
  end.

(** The characters of a string, each as a one-character string: what a
    [for] loop or [list.extend] sees when handed a [str]. *)
Fixpoint chars (s : string) : list string :=
  match s with
  | EmptyString => []
  | String c s' => String c EmptyString :: chars s'
  end.

(** [re.search(r'top\s+(\d+)', s)], returning [group(1)]. *)
Fixpoint take_while (p : ascii -> bool) (s : string) : string :=
  match s with
  | EmptyString => EmptyString
  | String c s' => if p c then String c (take_while p s') else EmptyString
  end.

Fixpoint drop_while (p : ascii -> bool) (s : string) : string :=
  match s with
  | EmptyString => EmptyString
  | String c s' => if p c then drop_while p s' else s
  end.

(** Match of [top\s+(\d+)] anchored at the head of [s]. *)
Definition match_top_at (s : string) : option string :=
  match s with
  | String "t" (String "o" (String "p" rest)) =>
      match rest with
      | String c _ =>
          if isspace c then
            match take_while isdigit (drop_while isspace rest) with
            | EmptyString => None
            | digits => Some digits
            end
          else None
      | EmptyString => None
      end
  | _ => None
  end.

Fixpoint search_top (s : string) : option string :=
  match match_top_at s with
  | Some d => Some d
  | None =>
      match s with
      | EmptyString => None
      | String _ s' => search_top s'
      end
  end.

End PyStr.

(** ** Alias values

    The alias tables are JSON-like dictionaries whose values are lists of
    canonical targets or, for the time, quantity and metadata entries,
    single strings. *)

Inductive jvalue : Type :=
  | JStr (s : string)
  | JList (l : list string).

(** What [for target in value] and [list.extend(value)] enumerate. *)
Definition iter_value (v : jvalue) : list string :=
  match v with
  | JStr s => PyStr.chars s
  | JList l => l
  end.

(** Exceptions that the modelled code raises or catches. *)
Inductive exn : Type :=
  | FileNotFoundError (msg : string)
  | JSONDecodeError (msg : string)
  | AttributeError (msg : string)
  | TypeError (msg : string)
  | OtherException (msg : string).

(** [str(e)] *)
Definition str_exn (e : exn) : string :=
  match e with
  | FileNotFoundError msg | JSONDecodeError msg | AttributeError msg
  | TypeError msg | OtherException msg => msg
  end.

(** ** [UniversalAliasMapper] (product_aliases.py) *)

Module Universal.

(** The document found at [config_path], as [exists()], [open] and
    [json.load] report it. *)
Inductive source : Type :=
  | Absent
  | Malformed
  | Parsed (doc : gmap string (gmap string jvalue)).

Record mapper : Type := Mapper {
  config_file : source;
  file_writable : bool;
  aliases_config : gmap string (gmap string jvalue);
  product_to_aliases : gmap string (gset string)
}.

Definition empty_config : gmap string (gmap string jvalue) :=
  <["product_aliases" := ∅]> (
  <["os_aliases" := ∅]> (
  <["http_method_aliases" := ∅]> (
  <["provider_aliases" := ∅]> (
  <["resource_aliases" := ∅]> (
  <["time_aliases" := ∅]> (
  <["quantity_aliases" := ∅]> (
  <["comparison_aliases" := ∅]> ∅))))))).

Definition required_sections : list string :=
  ["product_aliases"; "os_aliases"; "http_method_aliases"].

(** The body of the [try] block of [_load_aliases_config]: [inl e] when it
    raises [e], [inr doc] when it runs to its end. *)
Definition try_load (src : source) : exn + gmap string (gmap string jvalue) :=
  match src with
  | Absent => inl (FileNotFoundError "Aliases config file not found")
  | Malformed => inl (JSONDecodeError "Expecting value")
  | Parsed doc => inr doc
  end.

(** [_load_aliases_config]: the value left in [self.aliases_config], or the
    exception that leaves the method. *)
Definition _load_aliases_config (src : source)
  : exn + gmap string (gmap string jvalue) :=
  match try_load src with
  | inr doc => inr doc
  | inl _ => inr empty_config   (* except Exception: fall back *)
  end.

(** [self.product_to_aliases[product].add(alias)], creating the set first
    when the product is new. *)
Definition index_add (rev : gmap string (gset string)) (product alias : string)
  : gmap string (gset string) :=
  <[product := {[alias]} ∪ default ∅ (rev !! product)]> rev.

Definition index_add_all (alias : string) (products : list string)
    (rev : gmap string (gset string)) : gmap string (gset string) :=
  foldl (λ r product, index_add r product alias) rev products.

Definition _build_reverse_mappings (cfg : gmap string (gmap string jvalue))
    (rev : gmap string (gset string)) : gmap string (gset string) :=
  let product_aliases := default ∅ (cfg !! "product_aliases") in
  foldl (λ r '(alias, products), index_add_all alias (iter_value products) r)
        rev (map_to_list product_aliases).

(** [__init__] *)
Definition init (src : source) (writable : bool) : exn + mapper :=
  match _load_aliases_config src with
  | inl e => inl e
  | inr cfg =>
      inr {| config_file := src;
             file_writable := writable;
             aliases_config := cfg;
             product_to_aliases := _build_reverse_mappings cfg ∅ |}
  end.

Definition get_aliases_for_category (m : mapper) (category : string)
  : gmap string jvalue :=
  default ∅ (aliases_config m !! category).

Definition get_aliases_for_product (m : mapper) (product_name : string)
  : gset string :=
  default ∅ (product_to_aliases m !! product_name).

(** Phase one of [find_products_by_query]: direct product names. *)
Definition direct_matches (query_lower : string) (available_products : list string)
  : gset string :=
  foldl (λ matched product,
           if PyStr.contains (PyStr.lower product) query_lower
           then {[product]} ∪ matched else matched)
        ∅ available_products.

(** The loop shared by the alias phase and [find_matches_by_category]:
    every target of every alias contained in the text, kept when [keep]
    accepts it. *)
Definition alias_matches (query_lower : string) (keep : string → bool)
    (aliases : gmap string jvalue) (matched : gset string) : gset string :=
  foldl (λ acc '(alias, targets),
           if PyStr.contains (PyStr.lower alias) query_lower
           then foldl (λ acc' target,
                         if keep target then {[target]} ∪ acc' else acc')
                      acc (iter_value targets)
           else acc)
        matched (map_to_list aliases).

Definition find_products_by_query (m : mapper) (query_text : string)
    (available_products : list string) : gset string :=
  let query_lower := PyStr.lower query_text in
  let matched_products := direct_matches query_lower available_products in
  if decide (matched_products = ∅) then
    alias_matches query_lower
      (λ product, bool_decide (product ∈ available_products))
      (get_aliases_for_category m "product_aliases") matched_products
  else matched_products.

Definition find_matches_by_category (m : mapper) (query_text category : string)
    (available_values : option (list string)) : gset string :=
  let query_lower := PyStr.lower query_text in
  alias_matches query_lower
    (λ target, match available_values with
               | None => true
               | Some vs => bool_decide (target ∈ vs)
               end)
    (get_aliases_for_category m category) ∅.

(** [save_config]: the metadata stamp is written in memory first; the
    document replaces the file when it can be opened for writing, and a
    failure is caught and only reported. *)
Definition save_config (m : mapper) : mapper :=
  let cfg := aliases_config m in
  let metadata := default ∅ (cfg !! "_metadata") in
  let cfg' := <["_metadata" := <["last_updated" := JStr "2025-08-28"]> metadata]> cfg in
  {| config_file := if file_writable m then Parsed cfg' else config_file m;
     file_writable := file_writable m;
     aliases_config := cfg';
     product_to_aliases := product_to_aliases m |}.

Definition add_alias (m : mapper) (category alias : string)
    (targets : list string) (save_to_file : bool) : mapper :=
  let cfg := aliases_config m in
  let entries := default ∅ (cfg !! category) in
  let cfg' := <[category := <[PyStr.lower alias := JList targets]> entries]> cfg in
  let rev' :=
    if decide (category = "product_aliases")
    then index_add_all (PyStr.lower alias) targets (product_to_aliases m)
    else product_to_aliases m in
  let m' := {| config_file := config_file m;
               file_writable := file_writable m;
               aliases_config := cfg';
               product_to_aliases := rev' |} in
  if save_to_file then save_config m' else m'.

(** [get_all_aliases]: the configuration without the entries whose key
    starts with an underscore. *)
Definition get_all_aliases (m : mapper) : gmap string (gmap string jvalue) :=
  filter (λ kv, PyStr.startswith "_" kv.1 = false) (aliases_config m).

(** [get_metadata] *)
Definition get_metadata (m : mapper) : gmap string jvalue :=
  default ∅ (aliases_config m !! "_metadata").

End Universal.

(** ** [EnhancedAliasMapper] (enhanced_aliases.py) *)

Module Enhanced.

Definition product_aliases : gmap string jvalue :=
  list_to_map [
    ("js", JList ["JavaScript"; "JavaScript (Node.JS)"; "JavaScript RLC"]);
    ("javascript", JList ["JavaScript"; "JavaScript (Node.JS)"; "JavaScript RLC"]);
    ("node", JList ["JavaScript (Node.JS)"]);
    ("nodejs", JList ["JavaScript (Node.JS)"]);
    ("node.js", JList ["JavaScript (Node.JS)"]);
    ("rlc", JList ["JavaScript RLC"]);
    ("rest", JList ["JavaScript RLC"]);
    (".net", JList [".Net Code-gen"; ".Net Fluent"]);
    ("dotnet", JList [".Net Code-gen"; ".Net Fluent"]);
    ("csharp", JList [".Net Code-gen"; ".Net Fluent"]);
    ("c#", JList [".Net Code-gen"; ".Net Fluent"]);
    ("net", JList [".Net Code-gen"; ".Net Fluent"]);
    ("cs", JList [".Net Code-gen"; ".Net Fluent"]);
    ("java", JList ["Java Fluent Lite"; "Java Fluent Premium"]);
    ("jdk", JList ["Java Fluent Lite"; "Java Fluent Premium"]);
    ("python", JList ["Python-SDK"]);
    ("py", JList ["Python-SDK"]);
    ("python3", JList ["Python-SDK"]);
    ("pip", JList ["Python-SDK"]);
    ("go", JList ["Go-SDK"]);
    ("golang", JList ["Go-SDK"]);
    ("gopher", JList ["Go-SDK"]);
    ("php", JList ["PHP-SDK"]);
    ("ruby", JList ["Ruby-SDK"]);
    ("rb", JList ["Ruby-SDK"]);
    ("rust", JList ["Rust"]);
    ("rs", JList ["Rust"]);
    ("rustlang", JList ["Rust"]);
    ("cli", JList ["AzureCLI"]);
    ("azure-cli", JList ["AzureCLI"]);
    ("az", JList ["AzureCLI"]);
    ("command-line", JList ["AzureCLI"]);
    ("powershell", JList ["AzurePowershell"]);
    ("ps", JList ["AzurePowershell"]);
    ("pwsh", JList ["AzurePowershell"]);
    ("ps1", JList ["AzurePowershell"]);
    ("terraform", JList ["Terraform"]);
    ("tf", JList ["Terraform"]);
    ("hcl", JList ["Terraform"]);
    ("ansible", JList ["Ansible"]);
    ("playbook", JList ["Ansible"]);
    ("vscode", JList ["VS Code Azure Extension"]);
    ("vs-code", JList ["VS Code Azure Extension"]);
    ("visual-studio-code", JList ["VS Code Azure Extension"]);
    ("code", JList ["VS Code Azure Extension"]) ].

Definition os_aliases : gmap string jvalue :=
  list_to_map [
    ("windows", JList ["Windows"]);
    ("win", JList ["Windows"]);
    ("microsoft", JList ["Windows"]);
    ("ms", JList ["Windows"]);
    ("win10", JList ["Windows"]);
    ("win11", JList ["Windows"]);
    ("linux", JList ["Linux"]);
    ("ubuntu", JList ["Linux"]);
    ("debian", JList ["Linux"]);
    ("centos", JList ["Linux"]);
    ("rhel", JList ["Linux"]);
    ("redhat", JList ["Linux"]);
    ("fedora", JList ["Linux"]);
    ("suse", JList ["Linux"]);
    ("unix", JList ["Linux"]);
    ("macos", JList ["macOS"]);
    ("mac", JList ["macOS"]);
    ("osx", JList ["macOS"]);
    ("apple", JList ["macOS"]);
    ("darwin", JList ["macOS"]) ].

Definition http_method_aliases : gmap string jvalue :=
  list_to_map [
    ("get", JList ["GET"]);
    ("read", JList ["GET"]);
    ("fetch", JList ["GET"]);
    ("retrieve", JList ["GET"]);
    ("query", JList ["GET"]);
    ("post", JList ["POST"]);
    ("create", JList ["POST"]);
    ("add", JList ["POST"]);
    ("insert", JList ["POST"]);
    ("new", JList ["POST"]);
    ("put", JList ["PUT"]);
    ("update", JList ["PUT"]);
    ("modify", JList ["PUT"]);
    ("change", JList ["PUT"]);
    ("edit", JList ["PUT"]);
    ("delete", JList ["DELETE"]);
    ("remove", JList ["DELETE"]);
    ("del", JList ["DELETE"]);
    ("destroy", JList ["DELETE"]);
    ("patch", JList ["PATCH"]);
    ("partial", JList ["PATCH"]) ].

Definition provider_aliases : gmap string jvalue :=
  list_to_map [
    ("compute", JList ["Microsoft.Compute"]);
    ("vm", JList ["Microsoft.Compute"]);
    ("virtual-machine", JList ["Microsoft.Compute"]);
    ("server", JList ["Microsoft.Compute"]);
    ("storage", JList ["Microsoft.Storage"]);
    ("blob", JList ["Microsoft.Storage"]);
    ("file", JList ["Microsoft.Storage"]);
    ("disk", JList ["Microsoft.Storage"]);
    ("network", JList ["Microsoft.Network"]);
    ("networking", JList ["Microsoft.Network"]);
    ("vnet", JList ["Microsoft.Network"]);
    ("subnet", JList ["Microsoft.Network"]);
    ("nsg", JList ["Microsoft.Network"]);
    ("web", JList ["Microsoft.Web"]);
    ("webapp", JList ["Microsoft.Web"]);
    ("app-service", JList ["Microsoft.Web"]);
    ("website", JList ["Microsoft.Web"]);
    ("sql", JList ["Microsoft.Sql"]);
    ("database", JList ["Microsoft.Sql"]);
    ("db", JList ["Microsoft.Sql"]);
    ("mysql", JList ["Microsoft.DBforMySQL"]);
    ("postgresql", JList ["Microsoft.DBforPostgreSQL"]);
    ("cosmos", JList ["Microsoft.DocumentDB"]);
    ("cosmosdb", JList ["Microsoft.DocumentDB"]);
    ("container", JList ["Microsoft.ContainerService"]);
    ("aks", JList ["Microsoft.ContainerService"]);
    ("kubernetes", JList ["Microsoft.ContainerService"]);
    ("k8s", JList ["Microsoft.ContainerService"]);
    ("keyvault", JList ["Microsoft.KeyVault"]);
    ("vault", JList ["Microsoft.KeyVault"]);
    ("secret", JList ["Microsoft.KeyVault"]);
    ("certificate", JList ["Microsoft.KeyVault"]) ].

Definition resource_aliases : gmap string jvalue :=
  list_to_map [
    ("vm", JList ["virtualMachines"]);
    ("virtual-machine", JList ["virtualMachines"]);
    ("server", JList ["virtualMachines"]);
    ("instance", JList ["virtualMachines"]);
    ("storage-account", JList ["storageAccounts"]);
    ("blob", JList ["storageAccounts"]);
    ("storage", JList ["storageAccounts"]);
    ("vnet", JList ["virtualNetworks"]);
    ("virtual-network", JList ["virtualNetworks"]);
    ("network", JList ["virtualNetworks"]);
    ("subnet", JList ["subnets"]);
    ("nsg", JList ["networkSecurityGroups"]);
    ("security-group", JList ["networkSecurityGroups"]);
    ("webapp", JList ["webApps"]);
    ("web-app", JList ["webApps"]);
    ("app-service", JList ["webApps"]);
    ("website", JList ["webApps"]);
    ("sql-server", JList ["sqlServers"]);
    ("database", JList ["databases"]);
    ("db", JList ["databases"]);
    ("aks", JList ["kubernetesClusters"]);
    ("kubernetes", JList ["kubernetesClusters"]);
    ("k8s", JList ["kubernetesClusters"]);
    ("cluster", JList ["kubernetesClusters"]);
    ("keyvault", JList ["keyVaults"]);
    ("vault", JList ["keyVaults"]) ].

Definition time_aliases : gmap string jvalue :=
  list_to_map [
    ("today", JStr "2025-08-28");
    ("this-month", JStr "2025-08");
    ("current-month", JStr "2025-08");
    ("last-month", JStr "2025-07");
    ("previous-month", JStr "2025-07");
    ("this-year", JStr "2025");
    ("current-year", JStr "2025");
    ("last-year", JStr "2024");
    ("previous-year", JStr "2024");
    ("recent", JStr "ORDER BY Month DESC");
    ("latest", JStr "ORDER BY Month DESC");
    ("newest", JStr "ORDER BY Month DESC");
    ("oldest", JStr "ORDER BY Month ASC");
    ("earliest", JStr "ORDER BY Month ASC") ].

Definition quantity_aliases : gmap string jvalue :=
  list_to_map [
    ("top", JStr "TOP");
    ("first", JStr "TOP");
    ("limit", JStr "TOP");
    ("most", JStr "ORDER BY [count_column] DESC");
    ("highest", JStr "ORDER BY [count_column] DESC");
    ("maximum", JStr "ORDER BY [count_column] DESC");
    ("least", JStr "ORDER BY [count_column] ASC");
    ("lowest", JStr "ORDER BY [count_column] ASC");
    ("minimum", JStr "ORDER BY [count_column] ASC");
    ("total", JStr "SUM([count_column])");
    ("sum", JStr "SUM([count_column])");
    ("count", JStr "COUNT(*)");
    ("number", JStr "COUNT(*)");
    ("average", JStr "AVG([count_column])");
    ("avg", JStr "AVG([count_column])") ].

(** What [getattr(self, f'{category}_aliases', {})] finds: one of the
    seven tables, the bound method [get_all_aliases], or the default. *)
Inductive attribute : Type :=
  | AttrDict (d : gmap string jvalue)
  | AttrMethod.

Definition getattr_aliases (category : string) : attribute :=
  if decide (category = "product") then AttrDict product_aliases
  else if decide (category = "os") then AttrDict os_aliases
  else if decide (category = "http_method") then AttrDict http_method_aliases
  else if decide (category = "provider") then AttrDict provider_aliases
  else if decide (category = "resource") then AttrDict resource_aliases
  else if decide (category = "time") then AttrDict time_aliases
  else if decide (category = "quantity") then AttrDict quantity_aliases
  else if decide (category = "get_all") then AttrMethod
  else AttrDict ∅.

(** The [matches] list after the loop over [alias_map.items()]. *)
Definition collect (text_lower : string) (alias_map : gmap string jvalue)
  : list string :=
  foldl (λ matches '(alias, targets),
           if PyStr.contains alias text_lower
           then (matches ++ iter_value targets)%list else matches)
        [] (map_to_list alias_map).

(** [find_matches]; calling [items()] on a method raises. *)
Definition find_matches (text category : string) : exn + gset string :=
  let text_lower := PyStr.lower text in
  match getattr_aliases category with
  | AttrDict alias_map => inr (list_to_set (collect text_lower alias_map))
  | AttrMethod => inl (AttributeError "'method' object has no attribute 'items'")
  end.

(** [get_all_aliases] *)
Definition get_all_aliases : gmap string (gmap string jvalue) :=
  list_to_map [
    ("products", product_aliases);
    ("os", os_aliases);
    ("http_methods", http_method_aliases);
    ("providers", provider_aliases);
    ("resources", resource_aliases);
    ("time_expressions", time_aliases);
    ("quantity_expressions", quantity_aliases) ].

End Enhanced.


(** ** [AliasManager] (alias_manager.py) *)

Module AliasManager.

(** The findings of [validate_config], one constructor for each message
    that the method can append to [issues]: a category without aliases, an
    alias whose targets are falsy, an alias whose targets are a list of
    length zero, and a metadata field that is missing. *)
Inductive issue : Type :=
  | EmptyCategory (category : string)
  | NoTargets (alias category : string)
  | EmptyTargetList (alias category : string)
  | MissingMetadata (field : string).

(** Truth value of an alias value in [if not targets]. *)
Definition value_truthy (v : jvalue) : bool :=
  match v with
  | JStr s => negb (String.eqb s "")
  | JList l => match l with [] => false | _ => true end
  end.

(** [isinstance(targets, list) and len(targets) == 0] *)
Definition is_empty_list (v : jvalue) : bool :=
  match v with
  | JList [] => true
  | _ => false
  end.

(** The findings for one alias of a category. *)
Definition target_issues (category alias : string) (targets : jvalue)
  : list issue :=
  if negb (value_truthy targets) then [NoTargets alias category]
  else if is_empty_list targets then [EmptyTargetList alias category]
  else [].

(** The findings for one category. *)
Definition category_issues (category : string) (aliases : gmap string jvalue)
  : list issue :=
  ((if decide (aliases = ∅) then [EmptyCategory category] else [])
   ++ concat ((λ kv, target_issues category kv.1 kv.2) <$> map_to_list aliases))%list.

Definition required_metadata : list string :=
  ["version"; "last_updated"; "description"].

(** [validate_config]: the list [issues] at the end of the method.  The
    categories and aliases are visited in the enumeration order of the
    dictionaries. *)
Definition validate_config (m : Universal.mapper) : list issue :=
  (concat ((λ kv, category_issues kv.1 kv.2)
             <$> map_to_list (Universal.get_all_aliases m))
   ++ (MissingMetadata
         <$> filter (λ field, Universal.get_metadata m !! field = None)
                    required_metadata))%list.

(** [export_aliases]: the document handed to [json.dump].  An empty
    category name counts as none given. *)
Definition export_data (m : Universal.mapper) (category : option string)
  : gmap string (gmap string jvalue) :=
  let whole :=
    <["_metadata" := Universal.get_metadata m]> (Universal.get_all_aliases m) in
  match category with
  | Some c =>
      if String.eqb c "" then whole
      else {[ c := Universal.get_aliases_for_category m c ]}
  | None => whole
  end.

End AliasManager.

(** ** Python values held in the result dictionaries *)

Inductive pyval : Type :=
  | PNone
  | PBool (b : bool)
  | PInt (z : Z)
  | PFloat (f : float)
  | PStr (s : string)
  | PStrList (l : list string).

(** Truth value of an object in an [if]. *)
Definition truthy (v : pyval) : bool :=
  match v with
  | PNone => false
  | PBool b => b
  | PInt z => negb (z =? 0)%Z
  | PFloat f => negb (PrimFloat.eqb f 0%float)
  | PStr s => negb (String.eqb s "")
  | PStrList l => match l with [] => false | _ => true end
  end.

(** ** [SimpleMCPTools] (simple_mcp_tools.py) *)

Module Tools.

Section Direct.

(** Cell values of a result set. *)
Variable Value : Type.

(** The dictionary returned by the SQL client; either key may be
    missing. *)
Record query_result : Type := QueryResult {
  rows : option (list (list Value));
  columns : option (list string)
}.

(** [MSSQLRestClient.execute_query_via_rest], the SQL execution
    collaborator: it returns a result set or raises. *)
Variable execute_query_via_rest : string → exn + query_result.

Inductive tool_result : Type :=
  | ErrorOnly (error : string)
  | Failure (error : string) (query : string)
  | Success (query : string) (data : list (gmap string Value))
            (row_count : nat) (cols : list string).

Definition dangerous_keywords : list string :=
  ["drop"; "delete"; "insert"; "update"; "create"; "alter"; "truncate"].

(** [any(keyword in sql_lower for keyword in dangerous_keywords)] *)
Definition has_dangerous (sql_lower : string) : bool :=
  existsb (λ keyword, PyStr.contains keyword sql_lower) dangerous_keywords.

(** One row turned into a dictionary keyed by column name. *)
Definition format_row (cols : list string) (row : list Value)
  : gmap string Value :=
  foldl (λ row_dict '(i, value),
           let column_name :=
             match cols !! i with
             | Some c => c
             | None => "column_" +:+ pretty i
             end in
           <[column_name := value]> row_dict)
        ∅ (imap (λ i value, (i, value)) row).

(** [execute_sql_query_direct]: the returned dictionary, together with
    the queries handed to the SQL client during the call, in order. *)
Definition execute_sql_query_direct (sql_query : string)
  : tool_result * list string :=
  let sql_lower := PyStr.strip (PyStr.lower sql_query) in
  if negb (PyStr.startswith "select" sql_lower) then
    (ErrorOnly "Only SELECT queries are allowed", [])
  else if has_dangerous sql_lower then
    (ErrorOnly "Query contains prohibited operations", [])
  else
    match execute_query_via_rest sql_query with
    | inl e =>
        (Failure ("Error executing query: " +:+ str_exn e) sql_query,
         [sql_query])
    | inr query_result =>
        let cols := default [] (columns query_result) in
        let result_data := format_row cols <$> default [] (rows query_result) in
        (Success sql_query result_data (length result_data) cols,
         [sql_query])
    end.

(** [get_sample_data]: the statement is built from the table name and the
    limit and handed to [execute_sql_query_direct]. *)
Definition get_sample_data (table_name : string) (limit : Z)
  : tool_result * list string :=
  execute_sql_query_direct
    ("SELECT TOP " +:+ pretty limit +:+ " * FROM " +:+ table_name).

End Direct.

(** The statement assembled by [suggest_query_structure] from the parsed
    components (the specification calls this [build_select]). *)
Definition suggested_sql (table_name : string) (cols : list string)
    (where_clause order_clause limit_clause : string) : string :=
  let columns_str :=
    match cols with [] => "*" | _ => PyStr.join ", " cols end in
  let sql := "SELECT " +:+ columns_str +:+ " FROM " +:+ table_name in
  let sql :=
    if String.eqb where_clause "1=1" then sql
    else sql +:+ " WHERE " +:+ where_clause in
  let sql :=
    if String.eqb order_clause "" then sql
    else sql +:+ " " +:+ order_clause in
  if String.eqb limit_clause "" then sql
  else PyStr.replace "SELECT" ("SELECT " +:+ limit_clause) sql.

(** The dictionary [parsed] that the rule-based [QueryParser] hands to
    [suggest_query_structure], when it has no [error] entry. *)
Record parsed_query : Type := ParsedQuery {
  parsed_table_name : string;
  parsed_columns : list string;
  parsed_where_clause : string;
  parsed_order_clause : string;
  parsed_limit_clause : string
}.

Inductive suggestion : Type :=
  | Suggestions (suggestions : list string)
  | Suggested (sql explanation table : string) (cols : list string)
              (filters ordering limit : option string).

(** [suggest_query_structure], from the parser's answer on ([inl]: the
    answer has an [error] entry). *)
Definition suggest_query_structure (parsed : string + parsed_query) : suggestion :=
  match parsed with
  | inl _ =>
      Suggestions
        ["Try asking about specific tables: products, customers, usage";
         "Include time filters: 'this month', '2024-01'";
         "Ask for aggregations: 'top 10', 'count by month'";
         "Filter by specific values: 'Python SDK', 'Windows OS'"]
  | inr q =>
      Suggested
        (suggested_sql (parsed_table_name q) (parsed_columns q)
           (parsed_where_clause q) (parsed_order_clause q) (parsed_limit_clause q))
        "This is a suggestion based on simple parsing. Agent can modify as needed."
        (parsed_table_name q) (parsed_columns q)
        (if String.eqb (parsed_where_clause q) "1=1" then None
         else Some (parsed_where_clause q))
        (if String.eqb (parsed_order_clause q) "" then None
         else Some (parsed_order_clause q))
        (if String.eqb (parsed_limit_clause q) "" then None
         else Some (parsed_limit_clause q))
  end.

End Tools.

(** ** [AIQueryParser] (ai_query_parser.py) *)

Module AIParser.

(** The part of the schema collaborator's table description that the
    parser reads. *)
Record table_info : Type := TableInfo {
  name : string;
  columns : list string
}.

(** The schema collaborator: the enabled tables in enumeration order and
    the lookup by name. *)
Record schema_loader : Type := SchemaLoader {
  get_enabled_tables : list (string * table_info);
  get_table_info : string → option table_info
}.

(** What [json.loads] makes of the model's answer. *)
Inductive json_outcome : Type :=
  | JInvalid (msg : string)
  | JNotObject (msg : string)
  | JObject (d : gmap string pyval).

(** The language-model collaborator: the answer to the prompt built for a
    question (or the exception of the call), and the JSON reader. *)
Record ai_backend : Type := AIBackend {
  acreate : string → exn + string;
  json_loads : string → json_outcome
}.

Record parser : Type := Parser {
  schema : schema_loader;
  backend : ai_backend;
  use_ai : bool
}.

Definition error_dict (msg : string) : gmap string pyval :=
  {[ "error" := PStr msg ]}.

Definition required_fields : list string :=
  ["table_name"; "columns"; "where_clause"].

(** [table_info.name == result['table_name']] for some enabled table. *)
Definition table_found (sl : schema_loader) (v : pyval) : bool :=
  match v with
  | PStr t => existsb (λ kv, String.eqb (name kv.2) t) (get_enabled_tables sl)
  | _ => false
  end.

(** The clean-up of an empty [where_clause]; a truthy value that is not
    a string has no [strip]. *)
Definition clean_where (result : gmap string pyval)
  : exn + gmap string pyval :=
  match result !! "where_clause" with
  | Some v =>
      if negb (truthy v) then inr (<["where_clause" := PStr "1=1"]> result)
      else match v with
           | PStr w =>
               if String.eqb (PyStr.strip w) ""
               then inr (<["where_clause" := PStr "1=1"]> result)
               else inr result
           | _ => inl (AttributeError "object has no attribute 'strip'")
           end
  | None => inr (<["where_clause" := PStr "1=1"]> result)
  end.

Definition parse_with_ai (p : parser) (user_question : string)
  : gmap string pyval :=
  if negb (use_ai p) then error_dict "AI parsing not available"
  else
    match acreate (backend p) user_question with
    | inl e => error_dict ("AI parsing failed: " +:+ str_exn e)
    | inr content =>
        let ai_response := PyStr.strip content in
        match json_loads (backend p) ai_response with
        | JInvalid msg =>
            <["ai_response" := PStr ai_response]>
              (error_dict ("AI returned invalid JSON: " +:+ msg))
        | JNotObject msg => error_dict ("AI parsing failed: " +:+ msg)
        | JObject result =>
            match filter (λ field, bool_decide (result !! field = None))
                         required_fields with
            | field :: _ =>
                error_dict ("AI response missing required field: " +:+ field)
            | [] =>
                if negb (table_found (schema p)
                           (default PNone (result !! "table_name")))
                then error_dict ("AI suggested invalid table: " +:+
                                 match result !! "table_name" with
                                 | Some (PStr t) => t
                                 | _ => ""
                                 end)
                else
                  match clean_where result with
                  | inl e => error_dict ("AI parsing failed: " +:+ str_exn e)
                  | inr result =>
                      <["original_question" := PStr user_question]>
                        (<["ai_parsed" := PBool true]> result)
                  end
            end
        end
    end.

(** The literal [0.7], as the binary64 number Python reads it. *)
Definition threshold : float := 0x1.6666666666666p-1%float.

(** [v >= 0.7]; comparing [None], a string or a list with a float raises
    [TypeError]. *)
Definition ge_threshold (v : pyval) : exn + bool :=
  match v with
  | PFloat f => inr (PrimFloat.leb threshold f)
  | PInt z => inr (1 <=? z)%Z
  | PBool b => inr b
  | _ => inl (TypeError "'>=' not supported")
  end.

Definition fallback_rule_based_parsing (p : parser) (user_question : string)
  : gmap string pyval :=
  let enabled_tables := get_enabled_tables (schema p) in
  match enabled_tables with
  | [] => error_dict "No enabled tables found"
  | first :: _ =>
      let query_lower := PyStr.lower user_question in
      (* table_name stays None unless the loop assigns it *)
      let table_name : option string :=
        foldl (λ found kv,
                 match found with
                 | Some t => Some t
                 | None =>
                     if existsb (λ keyword, PyStr.contains keyword query_lower)
                                ["product"; "customer"; "usage"]
                     then Some (name kv.2) else None
                 end)
              None enabled_tables in
      let table_name :=
        match table_name with
        | Some t => if String.eqb t "" then name first.2 else t
        | None => name first.2
        end in
      let cols :=
        match get_table_info (schema p) table_name with
        | Some table_info =>
            match filter (λ col, col ∈ columns table_info)
                         ["Month"; "Product"; "RequestCount"] with
            | [] => take 3 (columns table_info)
            | cs => cs
            end
        | None => ["*"]
        end in
      let where_clause :=
        if PyStr.contains "this month" query_lower
        then "Month LIKE '2025-08%'" else "1=1" in
      let order_clause :=
        if PyStr.contains "top" query_lower
        then "ORDER BY RequestCount DESC" else "" in
      let limit_clause :=
        match PyStr.search_top query_lower with
        | Some digits => "TOP " +:+ digits
        | None => ""
        end in
      <["table_name" := PStr table_name]> (
      <["columns" := PStrList cols]> (
      <["where_clause" := PStr where_clause]> (
      <["order_clause" := PStr order_clause]> (
      <["limit_clause" := PStr limit_clause]> (
      <["ai_parsed" := PBool false]> (
      <["fallback_used" := PBool true]> ∅))))))
  end.

(** Whether [parse_user_query] returns the AI result as it is. *)
Definition accept_ai (ai_result : gmap string pyval) : exn + bool :=
  match ai_result !! "error" with
  | Some _ => inr false
  | None => ge_threshold (default (PInt 0) (ai_result !! "confidence"))
  end.

Definition parse_user_query (p : parser) (user_question : string)
  : gmap string pyval :=
  if use_ai p then
    let ai_result := parse_with_ai p user_question in
    match accept_ai ai_result with
    | inr true => ai_result
    | inr false => fallback_rule_based_parsing p user_question
    | inl _ => fallback_rule_based_parsing p user_question
    end
  else fallback_rule_based_parsing p user_question.

End AIParser.

(** ** [LocalAIQueryParser] (local_ai_query_parser.py) *)

Module LocalAI.

(** The local model: the answer to the prompt built for a question, or the
    exception that [query_local_ai] raises, and the JSON reader. *)
Record ai_backend : Type := AIBackend {
  query_local_ai : string → exn + string;
  json_loads : string → AIParser.json_outcome
}.

(** [model] is [ai_config['model']], which a caller's configuration may
    lack. *)
Record parser : Type := Parser {
  schema : AIParser.schema_loader;
  backend : ai_backend;
  model : option string
}.

(** [re.findall] for either pattern of [extract_json_from_response]: each
    match runs from an opening brace to the first closing brace after it
    ([cur] holds the match under way). *)
Fixpoint find_braced (cur : option string) (s : string) : list string :=
  match s with
  | EmptyString => []
  | String c s' =>
      match cur with
      | None =>
          if Ascii.eqb c "{" then find_braced (Some "{") s'
          else find_braced None s'
      | Some acc =>
          if Ascii.eqb c "}" then (acc +:+ "}") :: find_braced None s'
          else find_braced (Some (acc +:+ String c EmptyString)) s'
      end
  end.

(** The first candidate that [json.loads] accepts, with what it gives. *)
Fixpoint first_loaded (loads : string → AIParser.json_outcome)
    (candidates : list string) : option AIParser.json_outcome :=
  match candidates with
  | [] => None
  | candidate :: rest =>
      match loads candidate with
      | AIParser.JInvalid _ => first_loaded loads rest
      | outcome => Some outcome
      end
  end.

(** [parse_text_response] *)
Definition parse_text_response (p : parser) (response : string)
  : gmap string pyval :=
  let enabled_tables := AIParser.get_enabled_tables (schema p) in
  let response_lower := PyStr.lower response in
  let named :=
    list_find (λ kv, PyStr.contains (PyStr.lower (AIParser.name kv.2))
                                    response_lower = true)
              enabled_tables in
  let chosen : string * list string :=
    match named with
    | Some (_, kv) => (AIParser.name kv.2, ["Month"; "Product"; "RequestCount"])
    | None => ("", [])
    end in
  let chosen :=
    if String.eqb chosen.1 "" then
      match enabled_tables with
      | first :: _ => (AIParser.name first.2, take 3 (AIParser.columns first.2))
      | [] => chosen
      end
    else chosen in
  <["table_name" := PStr chosen.1]> (
  <["columns" := PStrList chosen.2]> (
  <["where_clause" := PStr "1=1"]> (
  <["order_clause" := PStr ""]> (
  <["limit_clause" := PStr ""]> ∅)))).

(** [extract_json_from_response]: [inr tt] when the JSON reader returns a
    value that is not an object. *)
Definition extract_json_from_response (p : parser) (response : string)
  : gmap string pyval + unit :=
  let matches := find_braced None response in
  match first_loaded (json_loads (backend p)) (matches ++ matches)%list with
  | Some (AIParser.JObject d) => inl d
  | Some _ => inr tt
  | None =>
      match json_loads (backend p) (PyStr.strip response) with
      | AIParser.JObject d => inl d
      | AIParser.JNotObject _ => inr tt
      | AIParser.JInvalid _ => inl (parse_text_response p response)
      end
  end.

(** [s.split(',')] *)
Fixpoint split_comma (s : string) : list string :=
  match s with
  | EmptyString => [EmptyString]
  | String c s' =>
      if Ascii.eqb c ","
      then EmptyString :: split_comma s'
      else match split_comma s' with
           | piece :: pieces => String c piece :: pieces
           | [] => [String c EmptyString]
           end
  end.

Definition required_fields : list string :=
  ["table_name"; "columns"; "where_clause"; "order_clause"; "limit_clause"].

(** The first loop of [validate_and_clean_result]: a missing field gets an
    empty string, or an empty list for [columns]. *)
Definition fill_missing (result : gmap string pyval) : gmap string pyval :=
  foldl (λ r field,
           match r !! field with
           | Some _ => r
           | None =>
               <[field := if String.eqb field "columns"
                          then PStrList [] else PStr ""]> r
           end)
        result required_fields.

(** [validate_and_clean_result]; [inl e] when it raises [e]. *)
Definition validate_and_clean_result (p : parser) (result : gmap string pyval)
    (user_question : string) : exn + gmap string pyval :=
  let result := fill_missing result in
  let enabled_tables := AIParser.get_enabled_tables (schema p) in
  let table_found :=
    AIParser.table_found (schema p) (default PNone (result !! "table_name")) in
  let result :=
    match enabled_tables with
    | first :: _ =>
        if table_found then result
        else
          let result := <["table_name" := PStr (AIParser.name first.2)]> result in
          if truthy (default PNone (result !! "columns")) then result
          else <["columns" := PStrList (take 3 (AIParser.columns first.2))]> result
    | [] => result
    end in
  match AIParser.clean_where result with
  | inl e => inl e
  | inr result =>
      let result :=
        match result !! "columns" with
        | Some (PStr cols) =>
            <["columns" := PStrList (PyStr.strip <$> split_comma cols)]> result
        | _ => result
        end in
      match model p with
      | None => inl (OtherException "'model'")
      | Some ai_model =>
          inr (<["ai_model" := PStr ai_model]> (
               <["original_question" := PStr user_question]> (
               <["ai_parsed" := PBool true]> result)))
      end
  end.

Definition parse_with_ai (p : parser) (user_question : string)
  : gmap string pyval :=
  match query_local_ai (backend p) user_question with
  | inl e => AIParser.error_dict ("AI parsing failed: " +:+ str_exn e)
  | inr ai_response =>
      match extract_json_from_response p ai_response with
      | inr _ =>
          (* validate_and_clean_result raises TypeError on a value that is
             not a dictionary *)
          AIParser.error_dict "AI parsing failed: object does not support item assignment"
      | inl result =>
          match validate_and_clean_result p result user_question with
          | inl e => AIParser.error_dict ("AI parsing failed: " +:+ str_exn e)
          | inr result => result
          end
      end
  end.

(** [fallback_parsing] *)
Definition fallback_parsing (p : parser) (user_question : string)
  : gmap string pyval :=
  match AIParser.get_enabled_tables (schema p) with
  | [] => AIParser.error_dict "No enabled tables found"
  | first :: _ =>
      let first_table := first.2 in
      let cols :=
        match AIParser.get_table_info (schema p) (AIParser.name first_table) with
        | Some table_info => take 5 (AIParser.columns table_info)
        | None => ["*"]
        end in
      <["table_name" := PStr (AIParser.name first_table)]> (
      <["columns" := PStrList cols]> (
      <["where_clause" := PStr "1=1"]> (
      <["order_clause" := PStr ""]> (
      <["limit_clause" := PStr ""]> (
      <["ai_parsed" := PBool false]> (
      <["fallback_used" := PBool true]> (
      <["original_question" := PStr user_question]> ∅)))))))
  end.

(** [parse_user_query]: any AI result without an [error] entry is
    returned. *)
Definition parse_user_query (p : parser) (user_question : string)
  : gmap string pyval :=
  let result := parse_with_ai p user_question in
  match result !! "error" with
  | Some _ => fallback_parsing p user_question
  | None => result
  end.

End LocalAI.

(** ** Sample data for the examples *)

(** A mapper whose only product alias, [sdk], points at another product. *)
Definition sdk_mapper : Universal.mapper :=
  Universal.add_alias
    {| Universal.config_file := Universal.Absent;
       Universal.file_writable := false;
       Universal.aliases_config := Universal.empty_config;
       Universal.product_to_aliases := ∅ |}
    "product_aliases" "sdk" ["Go-SDK"] false.

(** A configuration document with one product alias. *)
Definition js_document : gmap string (gmap string jvalue) :=
  {[ "product_aliases" := {[ "js" := JList ["JavaScript"] ]} ]}.

(** ** Mappers that the operations can produce

    A mapper is built by [__init__] from a document and then changed by
    [add_alias]. *)

Inductive reachable : Universal.mapper → Prop :=
  | reachable_init (src : Universal.source) (writable : bool) (m : Universal.mapper) :
      Universal.init src writable = inr m → reachable m
  | reachable_add (m : Universal.mapper) (category alias : string)
      (targets : list string) (save_to_file : bool) :
      reachable m →
      reachable (Universal.add_alias m category alias targets save_to_file).

(** Every pair of the primary table is in the reverse index. *)
Definition index_complete (m : Universal.mapper) : Prop :=
  ∀ alias v product,
    Universal.get_aliases_for_category m "product_aliases" !! alias = Some v →
    product ∈ iter_value v →
    alias ∈ Universal.get_aliases_for_product m product.

(** Every pair of the reverse index is in the primary table. *)
Definition index_sound (m : Universal.mapper) : Prop :=
  ∀ alias product,
    alias ∈ Universal.get_aliases_for_product m product →
    ∃ v, Universal.get_aliases_for_category m "product_aliases" !! alias = Some v
         ∧ product ∈ iter_value v.

(** A SQL client that answers every query with one row. *)
Definition one_row_client (sql_query : string)
  : exn + Tools.query_result string :=
  inr {| Tools.rows := Some [["2025-08"; "42"]];
         Tools.columns := Some ["Month"] |}.

(** A schema with one enabled table, and one with none. *)
Definition usage_table : AIParser.table_info :=
  {| AIParser.name := "ProductUsage";
     AIParser.columns := ["Month"; "Product"; "RequestCount"; "SubscriptionCount"] |}.

Definition one_table_schema : AIParser.schema_loader :=
  {| AIParser.get_enabled_tables := [("product_usage", usage_table)];
     AIParser.get_table_info :=
       λ table_name,
         if String.eqb table_name "ProductUsage" then Some usage_table else None |}.

Definition no_table_schema : AIParser.schema_loader :=
  {| AIParser.get_enabled_tables := [];
     AIParser.get_table_info := λ _, None |}.

(** A backend whose call times out, and one that answers with confidence
    [0.4]. *)
Definition timeout_backend : AIParser.ai_backend :=
  {| AIParser.acreate := λ _, inl (OtherException "Request timed out");
     AIParser.json_loads := λ _, AIParser.JInvalid "Expecting value" |}.

Definition unsure_reply : gmap string pyval :=
  <["table_name" := PStr "ProductUsage"]> (
  <["columns" := PStrList ["Month"]]> (
  <["where_clause" := PStr ""]> (
  <["confidence" := PFloat 0x1.999999999999ap-2%float]> ∅))).

Definition unsure_backend : AIParser.ai_backend :=
  {| AIParser.acreate := λ _, inr "{...}";
     AIParser.json_loads := λ _, AIParser.JObject unsure_reply |}.

Definition unsure_parser : AIParser.parser :=
  {| AIParser.schema := one_table_schema;
     AIParser.backend := unsure_backend;
     AIParser.use_ai := true |}.

Definition stranded_parser : AIParser.parser :=
  {| AIParser.schema := no_table_schema;
     AIParser.backend := timeout_backend;
     AIParser.use_ai := true |}.

(** ** The month filter in the specification's words

    The specification describes the filter as
    [Month LIKE '<current-year>-<current-month>%'], built from the date of
    the call; this is that text for a given year and month. *)
Definition spec_month_filter (year month : nat) : string :=
  "Month LIKE '" +:+ pretty year +:+ "-"
  +:+ (if (month <? 10)%nat then "0" +:+ pretty month else pretty month)
  +:+ "%'".

(** The mapper loaded from [js_document], and the same after [js] has been
    pointed at another product. *)
Definition js_mapper : Universal.mapper :=
  {| Universal.config_file := Universal.Parsed js_document;
     Universal.file_writable := true;
     Universal.aliases_config := js_document;
     Universal.product_to_aliases :=
       Universal._build_reverse_mappings js_document ∅ |}.

Definition repointed_mapper : Universal.mapper :=
  Universal.add_alias js_mapper "product_aliases" "js" ["Rust"] false.

(** The name [column_name] that the loop of [execute_sql_query_direct]
    gives to the cell at position [i] of a row. *)
Definition column_name (cols : list string) (i : nat) : string :=
  match cols !! i with
  | Some c => c
  | None => "column_" +:+ pretty i
  end.

(** One step of that loop: the cell [iv.2] at position [iv.1] is stored
    under its name. *)
Definition put_cell {Value : Type} (cols : list string)
    (row_dict : gmap string Value) (iv : nat * Value) : gmap string Value :=
  <[column_name cols iv.1 := iv.2]> row_dict.

(** A SQL client that answers with two columns and two rows. *)
Definition two_column_client (sql_query : string)
  : exn + Tools.query_result string :=
  inr {| Tools.rows := Some [["2025-07"; "17"]; ["2025-08"; "42"]];
         Tools.columns := Some ["Month"; "RequestCount"] |}.

(** A backend that answers with confidence [0.9] and a blank filter. *)
Definition sure_reply : gmap string pyval :=
  <["table_name" := PStr "ProductUsage"]> (
  <["columns" := PStrList ["Month"; "RequestCount"]]> (
  <["where_clause" := PStr "   "]> (
  <["confidence" := PFloat 0x1.ccccccccccccdp-1%float]> ∅))).

Definition sure_parser : AIParser.parser :=
  {| AIParser.schema := one_table_schema;
     AIParser.backend :=
       {| AIParser.acreate := λ _, inr " {...} ";
          AIParser.json_loads := λ _, AIParser.JObject sure_reply |};
     AIParser.use_ai := true |}.

(** Every character of [s] satisfies [test]. *)
Fixpoint all_chars (test : ascii → bool) (s : string) : bool :=
  match s with
  | EmptyString => true
  | String c s' => test c && all_chars test s'
  end.

(** A schema with two enabled tables, the second of which is the one about
    customers. *)
Definition two_table_schema : AIParser.schema_loader :=
  {| AIParser.get_enabled_tables :=
       [("product_usage", usage_table);
        ("customers",
         {| AIParser.name := "CustomerUsage";
            AIParser.columns := ["Customer"; "Region"] |})];
     AIParser.get_table_info :=
       λ table_name,
         if String.eqb table_name "ProductUsage" then Some usage_table else None |}.

Definition two_table_parser : AIParser.parser :=
  {| AIParser.schema := two_table_schema;
     AIParser.backend := timeout_backend;
     AIParser.use_ai := false |}.

(** A mapper whose file stored the alias [JS] with capital letters. *)
Definition capital_mapper : Universal.mapper :=
  {| Universal.config_file := Universal.Absent;
     Universal.file_writable := false;
     Universal.aliases_config :=
       {[ "product_aliases" := {[ "JS" := JList ["JavaScript"] ]} ]};
     Universal.product_to_aliases := {[ "JavaScript" := {[ "JS" ]} ]} |}.

(** A local model that wraps its answer in prose and gives the columns as
    one comma-separated string, over the schema with one table. *)
Definition prose_reply : gmap string pyval :=
  <["table_name" := PStr "Orders"]> (
  <["columns" := PStr "Month, RequestCount"]> ∅).

Definition prose_parser : LocalAI.parser :=
  {| LocalAI.schema := one_table_schema;
     LocalAI.backend :=
       {| LocalAI.query_local_ai := λ _, inr "Sure: {...} hope it helps";
          LocalAI.json_loads :=
            λ text, if String.eqb text "{...}"
                    then AIParser.JObject prose_reply
                    else AIParser.JInvalid "Expecting value" |};
     LocalAI.model := Some "llama3.1:8b" |}.

(** A column name as the cleaning of a comma-separated list gives it back:
    not empty, free of commas, with no white space at either end. *)
Definition plain_name (s : string) : Prop :=
  s ≠ "" ∧ all_chars (λ c, negb (Ascii.eqb c ",")) s = true ∧ PyStr.strip s = s.

(** * Properties *)

(** ** Facts about the string primitives *)

Section StringFacts.

Lemma startswith_app (p s : string) : PyStr.startswith p (p +:+ s) = true.
Proof.
  induction p as [|c p IH]; simpl; [done|].
  by rewrite Ascii.eqb_refl.
Qed.

Lemma startswith_refl (s : string) : PyStr.startswith s s = true.
Proof.
  induction s as [|c s IH]; simpl; [done|].
  by rewrite Ascii.eqb_refl.
Qed.

(** Every string contains itself. *)
Lemma contains_refl (s : string) : PyStr.contains s s = true.
Proof. destruct s; simpl; [done|]. by rewrite Ascii.eqb_refl, startswith_refl. Qed.

Lemma lower_char_idemp (c : ascii) :
  PyStr.lower_char (PyStr.lower_char c) = PyStr.lower_char c.
Proof. by destruct c as [[] [] [] [] [] [] [] []]. Qed.

Lemma lower_idemp (s : string) : PyStr.lower (PyStr.lower s) = PyStr.lower s.
Proof.
  induction s as [|c s IH]; simpl; [done|].
  by rewrite lower_char_idemp, IH.
Qed.

Lemma str_app_assoc (a b c : string) : (a +:+ b) +:+ c = a +:+ (b +:+ c).
Proof.
  induction a as [|x a IH]; [done|].
  change (String x ((a +:+ b) +:+ c) = String x (a +:+ (b +:+ c))).
  by rewrite IH.
Qed.

Lemma elem_of_chars_length (x s : string) :
  x ∈ PyStr.chars s → String.length x = 1.
Proof.
  induction s as [|c s IH]; simpl.
  - by intros ?%elem_of_nil.
  - intros [->|?]%elem_of_cons; [done|auto].
Qed.

End StringFacts.

(** ** The substring test, spelled out *)

Lemma startswith_iff_prefix (p s : string) :
  PyStr.startswith p s = true ↔ ∃ post, s = p +:+ post.
Proof.
  revert s. induction p as [|a p IH]; intros s.
  - split; [by exists s|done].
  - destruct s as [|b s]; cbn [PyStr.startswith].
    + split; [done|]. by intros [post [=]].
    + destruct (Ascii.eqb_spec a b) as [<-|Hne].
      * rewrite IH. split.
        -- intros [post ->]. by exists post.
        -- intros [post Heq]. exists post.
           change (String a p +:+ post) with (String a (p +:+ post)) in Heq.
           by injection Heq.
      * split; [done|]. intros [post Heq].
        change (String a p +:+ post) with (String a (p +:+ post)) in Heq.
        injection Heq as ??. congruence.
Qed.

(** [sub in s] holds exactly when [s] is some text, [sub], and some text. *)
Lemma contains_iff_occurs (sub s : string) :
  PyStr.contains sub s = true ↔ ∃ pre post, s = pre +:+ sub +:+ post.
Proof.
  induction s as [|c s IH]; cbn [PyStr.contains].
  - rewrite orb_false_r, startswith_iff_prefix. split.
    + intros [post Heq]. by exists "", post.
    + intros (pre & post & Heq). destruct pre; [by exists post|discriminate Heq].
  - rewrite orb_true_iff, startswith_iff_prefix, IH. split.
    + intros [[post Heq]|(pre & post & ->)].
      * by exists "", post.
      * by exists (String c pre), post.
    + intros (pre & post & Heq). destruct pre as [|c' pre].
      * left. by exists post.
      * right. exists pre, post.
        change (String c' pre +:+ sub +:+ post)
          with (String c' (pre +:+ sub +:+ post)) in Heq.
        by injection Heq.
Qed.

(** ** The primitives on sample texts *)

Example lower_mixed : PyStr.lower "Drop TABLE x_1" = "drop table x_1".
Proof. reflexivity. Qed.

Example contains_inner : PyStr.contains "net" "internet" = true.
Proof. reflexivity. Qed.

Example contains_absent : PyStr.contains "java" "js and python" = false.
Proof. reflexivity. Qed.

Example strip_both : PyStr.strip "  select 1 " = "select 1".
Proof. reflexivity. Qed.

Example replace_all : PyStr.replace "ab" "X" "abcabab" = "XcXX".
Proof. reflexivity. Qed.

Example replace_overlap : PyStr.replace "aa" "b" "aaa" = "ba".
Proof. reflexivity. Qed.

Example join_two : PyStr.join ", " ["A"; "B"] = "A, B".
Proof. reflexivity. Qed.

Example search_top_10 : PyStr.search_top "show top   10 products" = Some "10".
Proof. reflexivity. Qed.

Example search_top_later : PyStr.search_top "top x, then top 3" = Some "3".
Proof. reflexivity. Qed.

(** ** The matching loops as membership conditions *)

Section Loops.

Context (query_lower : string).

Lemma elem_of_target_loop (keep : string → bool) (targets : list string) (acc : gset string) (x : string) :
  x ∈ foldl (λ acc' target, if keep target then {[target]} ∪ acc' else acc')
            acc targets
  ↔ x ∈ acc ∨ (x ∈ targets ∧ keep x = true).
Proof.
  revert acc. induction targets as [|t targets IH]; intros acc; simpl.
  - set_solver.
  - rewrite IH. destruct (keep t) eqn:Hk.
    + rewrite elem_of_union, elem_of_singleton, elem_of_cons. split.
      * intros [[->|?]|[??]]; auto.
      * intros [?|[[->|?] ?]]; auto.
    + rewrite elem_of_cons. split.
      * intros [?|[??]]; auto.
      * intros [?|[[->|?] ?]]; auto. congruence.
Qed.

Lemma elem_of_alias_loop (keep : string → bool) (items : list (string * jvalue)) (acc : gset string)
    (x : string) :
  x ∈ foldl (λ acc '(alias, targets),
               if PyStr.contains (PyStr.lower alias) query_lower
               then foldl (λ acc' target,
                             if keep target then {[target]} ∪ acc' else acc')
                          acc (iter_value targets)
               else acc)
            acc items
  ↔ x ∈ acc ∨ ∃ alias v, (alias, v) ∈ items
               ∧ PyStr.contains (PyStr.lower alias) query_lower = true
               ∧ x ∈ iter_value v ∧ keep x = true.
Proof.
  revert acc. induction items as [|[a v] items IH]; intros acc; simpl.
  - split; [by left|]. intros [?|(? & ? & []%elem_of_nil & _)]; done.
  - rewrite IH. destruct (PyStr.contains (PyStr.lower a) query_lower) eqn:Hc.
    + rewrite elem_of_target_loop. split.
      * intros [[?|[??]]|(a' & v' & ? & ? & ? & ?)]; [by left| |].
        -- right. exists a, v. by rewrite elem_of_cons; auto.
        -- right. exists a', v'. by rewrite elem_of_cons; auto.
      * intros [?|(a' & v' & [[= -> ->]|?]%elem_of_cons & ? & ? & ?)];
          [by auto|by auto|]. right. by exists a', v'.
    + split.
      * intros [?|(a' & v' & ? & ? & ? & ?)]; [by left|].
        right. exists a', v'. by rewrite elem_of_cons; auto.
      * intros [?|(a' & v' & [[= -> ->]|?]%elem_of_cons & ? & ? & ?)];
          [by left|congruence|]. right. by exists a', v'.
Qed.

Lemma elem_of_alias_matches (keep : string → bool) (aliases : gmap string jvalue)
    (matched : gset string) (x : string) :
  x ∈ Universal.alias_matches query_lower keep aliases matched
  ↔ x ∈ matched ∨ ∃ alias v, aliases !! alias = Some v
               ∧ PyStr.contains (PyStr.lower alias) query_lower = true
               ∧ x ∈ iter_value v ∧ keep x = true.
Proof.
  unfold Universal.alias_matches. rewrite elem_of_alias_loop.
  by setoid_rewrite elem_of_map_to_list.
Qed.

Lemma elem_of_direct_loop (products : list string) (acc : gset string)
    (x : string) :
  x ∈ foldl (λ matched product,
               if PyStr.contains (PyStr.lower product) query_lower
               then {[product]} ∪ matched else matched)
            acc products
  ↔ x ∈ acc ∨ (x ∈ products ∧ PyStr.contains (PyStr.lower x) query_lower = true).
Proof.
  revert acc. induction products as [|t products IH]; intros acc; simpl.
  - set_solver.
  - rewrite IH.
    destruct (PyStr.contains (PyStr.lower t) query_lower) eqn:Hk.
    + rewrite elem_of_union, elem_of_singleton, elem_of_cons. split.
      * intros [[->|?]|[??]]; auto.
      * intros [?|[[->|?] ?]]; auto.
    + rewrite elem_of_cons. split.
      * intros [?|[??]]; auto.
      * intros [?|[[->|?] ?]]; auto. congruence.
Qed.

Lemma elem_of_direct_matches (products : list string) (x : string) :
  x ∈ Universal.direct_matches query_lower products
  ↔ x ∈ products ∧ PyStr.contains (PyStr.lower x) query_lower = true.
Proof.
  unfold Universal.direct_matches. rewrite elem_of_direct_loop. set_solver.
Qed.

Lemma elem_of_collect_loop (items : list (string * jvalue))
    (acc : list string) (x : string) :
  x ∈ foldl (λ matches '(alias, targets),
               if PyStr.contains alias query_lower
               then (matches ++ iter_value targets)%list else matches)
            acc items
  ↔ x ∈ acc ∨ ∃ alias v, (alias, v) ∈ items
               ∧ PyStr.contains alias query_lower = true ∧ x ∈ iter_value v.
Proof.
  revert acc. induction items as [|[a v] items IH]; intros acc; simpl.
  - split; [by left|]. intros [?|(? & ? & []%elem_of_nil & _)]; done.
  - rewrite IH. destruct (PyStr.contains a query_lower) eqn:Hc.
    + rewrite elem_of_app. split.
      * intros [[?|?]|(a' & v' & ? & ? & ?)]; [by left| |].
        -- right. exists a, v. by rewrite elem_of_cons; auto.
        -- right. exists a', v'. by rewrite elem_of_cons; auto.
      * intros [?|(a' & v' & [[= -> ->]|?]%elem_of_cons & ? & ?)];
          [by auto|by auto|]. right. by exists a', v'.
    + split.
      * intros [?|(a' & v' & ? & ? & ?)]; [by left|].
        right. exists a', v'. by rewrite elem_of_cons; auto.
      * intros [?|(a' & v' & [[= -> ->]|?]%elem_of_cons & ? & ?)];
          [by left|congruence|]. right. by exists a', v'.
Qed.

Lemma elem_of_collect (alias_map : gmap string jvalue) (x : string) :
  x ∈ Enhanced.collect query_lower alias_map
  ↔ ∃ alias v, alias_map !! alias = Some v
      ∧ PyStr.contains alias query_lower = true ∧ x ∈ iter_value v.
Proof.
  unfold Enhanced.collect. rewrite elem_of_collect_loop.
  setoid_rewrite elem_of_map_to_list. set_solver.
Qed.

End Loops.

(** ** Matching an alias against itself *)

(** All keys of the built-in tables are lowercase. *)
Lemma enhanced_keys_lowercase (category : string) (d : gmap string jvalue)
    (alias : string) (v : jvalue) :
  Enhanced.getattr_aliases category = Enhanced.AttrDict d →
  d !! alias = Some v → PyStr.lower alias = alias.
Proof.
  intros Hd Ha.
  assert (map_Forall (λ k _, PyStr.lower k = k) d) as Hall; [|by eapply Hall].
  unfold Enhanced.getattr_aliases in Hd.
  repeat case_decide; simplify_eq;
    apply (bool_decide_unpack _); vm_compute; exact I.
Qed.

(** The text [javascript] also contains the alias [java], whose targets
    join those stored under [javascript]. *)
Lemma C1_counterexample :
  Enhanced.product_aliases !! "javascript"
    = Some (JList ["JavaScript"; "JavaScript (Node.JS)"; "JavaScript RLC"])
  ∧ Enhanced.find_matches "javascript" "product"
    ≠ inr (list_to_set ["JavaScript"; "JavaScript (Node.JS)"; "JavaScript RLC"]).
Proof.
  split; [reflexivity|].
  intros H.
  assert (∀ r : exn + gset string,
            r = Enhanced.find_matches "javascript" "product" →
            match r with
            | inr s => bool_decide ("Java Fluent Lite" ∈ s)
            | inl _ => true
            end = true) as Hin.
  { intros r ->. vm_compute. reflexivity. }
  specialize (Hin _ (eq_sym H)). vm_compute in Hin. discriminate.
Qed.

(** C1 (amended).  For an alias key [a] of category [c] with target list
    [T], matching the text [a] in [c] yields every target of [T]; the
    result consists of exactly the targets of those alias keys of [c] that
    occur in [a] as substrings, so it is [T] itself when [a] is the only
    such key.  This holds for [find_matches_by_category] (no allow-list)
    and for [EnhancedAliasMapper.find_matches]. *)
Theorem C1_find_matches_of_alias :
  (∀ (m : Universal.mapper) (c a : string) (T : list string),
     Universal.get_aliases_for_category m c !! a = Some (JList T) →
     let r := Universal.find_matches_by_category m a c None in
     (∀ t, t ∈ T → t ∈ r)
     ∧ (∀ t, t ∈ r ↔
          ∃ a' v, Universal.get_aliases_for_category m c !! a' = Some v
                  ∧ PyStr.contains (PyStr.lower a') (PyStr.lower a) = true
                  ∧ t ∈ iter_value v)
     ∧ ((∀ a' v, Universal.get_aliases_for_category m c !! a' = Some v →
                 PyStr.contains (PyStr.lower a') (PyStr.lower a) = true →
                 a' = a) →
        r = list_to_set T))
  ∧ (∀ (c a : string) (d : gmap string jvalue) (T : list string),
       Enhanced.getattr_aliases c = Enhanced.AttrDict d →
       d !! a = Some (JList T) →
       ∃ r, Enhanced.find_matches a c = inr r
            ∧ (∀ t, t ∈ T → t ∈ r)
            ∧ (∀ t, t ∈ r ↔
                 ∃ a' v, d !! a' = Some v
                         ∧ PyStr.contains a' a = true ∧ t ∈ iter_value v)
            ∧ ((∀ a' v, d !! a' = Some v → PyStr.contains a' a = true → a' = a) →
               r = list_to_set T)).
Proof.
  split.
  - intros m c a T Ha r.
    assert (∀ t, t ∈ r ↔
              ∃ a' v, Universal.get_aliases_for_category m c !! a' = Some v
                      ∧ PyStr.contains (PyStr.lower a') (PyStr.lower a) = true
                      ∧ t ∈ iter_value v) as Hr.
    { intros t. unfold r, Universal.find_matches_by_category.
      rewrite elem_of_alias_matches. split.
      - intros [[]%elem_of_empty|(a' & v & ? & ? & ? & _)]. by exists a', v.
      - intros (a' & v & ? & ? & ?). right. by exists a', v. }
    split; [|split; [done|]].
    + intros t Ht. apply Hr. exists a, (JList T).
      by rewrite contains_refl.
    + intros Honly. apply set_eq. intros t.
      rewrite Hr, elem_of_list_to_set. split.
      * intros (a' & v & Hv & Hc & Ht).
        rewrite (Honly a' v Hv Hc) in Hv. by simplify_eq.
      * intros Ht. exists a, (JList T). by rewrite contains_refl.
  - intros c a d T Hd Ha.
    pose proof (enhanced_keys_lowercase _ _ _ _ Hd Ha) as Hlow.
    unfold Enhanced.find_matches. rewrite Hd, Hlow.
    eexists. split; [done|].
    assert (∀ t, t ∈ (list_to_set (Enhanced.collect a d) : gset string) ↔
              ∃ a' v, d !! a' = Some v
                      ∧ PyStr.contains a' a = true ∧ t ∈ iter_value v) as Hr.
    { intros t. by rewrite elem_of_list_to_set, elem_of_collect. }
    split; [|split; [done|]].
    + intros t Ht. apply Hr. exists a, (JList T). by rewrite contains_refl.
    + intros Honly. apply set_eq. intros t.
      rewrite Hr, elem_of_list_to_set. split.
      * intros (a' & v & Hv & Hc & Ht).
        rewrite (Honly a' v Hv Hc) in Hv. by simplify_eq.
      * intros Ht. exists a, (JList T). by rewrite contains_refl.
Qed.

(** The alias [linux] of the operating-system table. *)
Lemma C1_find_matches_of_alias_witness :
  ∃ r, Enhanced.find_matches "linux" "os" = inr r
       ∧ (∀ t, t ∈ ["Linux"] → t ∈ r).
Proof.
  destruct (proj2 C1_find_matches_of_alias "os" "linux" Enhanced.os_aliases
              ["Linux"] eq_refl eq_refl) as (r & Hr & Hsub & _).
  exists r. split; [exact Hr|exact Hsub].
Defined.
(** ** Direct product names before aliases *)

(** C5.  For every query text and list of available products (in
    particular every non-empty one): when some available product name occurs
    in the text, case-insensitively, [find_products_by_query] returns exactly
    the available products whose names occur in it; only when there is none
    does it return the alias matches, and those are restricted to the
    available products.  In both cases every product returned is
    available. *)
Theorem C5_direct_names_take_precedence (m : Universal.mapper)
    (query_text : string) (available_products : list string) :
  let query_lower := PyStr.lower query_text in
  let r := Universal.find_products_by_query m query_text available_products in
  ((∃ p0, p0 ∈ available_products
          ∧ PyStr.contains (PyStr.lower p0) query_lower = true) →
   ∀ p, p ∈ r ↔ p ∈ available_products
                 ∧ PyStr.contains (PyStr.lower p) query_lower = true)
  ∧ ((∀ p0, p0 ∈ available_products →
            PyStr.contains (PyStr.lower p0) query_lower = false) →
     ∀ p, p ∈ r ↔
       p ∈ available_products
       ∧ ∃ alias v,
           Universal.get_aliases_for_category m "product_aliases" !! alias = Some v
           ∧ PyStr.contains (PyStr.lower alias) query_lower = true
           ∧ p ∈ iter_value v)
  ∧ (∀ p, p ∈ r → p ∈ available_products).
Proof.
  intros query_lower r.
  assert (∀ p, p ∈ Universal.direct_matches query_lower available_products ↔
               p ∈ available_products
               ∧ PyStr.contains (PyStr.lower p) query_lower = true) as Hdirect
    by (intros p; apply elem_of_direct_matches).
  unfold r, Universal.find_products_by_query. fold query_lower.
  case_decide as Hempty.
  - (* no direct match: the alias phase *)
    assert (∀ p0, p0 ∈ available_products →
                  PyStr.contains (PyStr.lower p0) query_lower = false) as Hnone.
    { intros p0 Hp0.
      destruct (PyStr.contains (PyStr.lower p0) query_lower) eqn:Hc; [|done].
      assert (p0 ∈ Universal.direct_matches query_lower available_products) as Hin
        by by apply Hdirect.
      rewrite Hempty in Hin. by apply elem_of_empty in Hin. }
    assert (∀ p, p ∈ Universal.alias_matches query_lower
                   (λ product, bool_decide (product ∈ available_products))
                   (Universal.get_aliases_for_category m "product_aliases")
                   (Universal.direct_matches query_lower available_products) ↔
                 p ∈ available_products
                 ∧ ∃ alias v,
                     Universal.get_aliases_for_category m "product_aliases" !! alias
                       = Some v
                     ∧ PyStr.contains (PyStr.lower alias) query_lower = true
                     ∧ p ∈ iter_value v) as Halias.
    { intros p. rewrite elem_of_alias_matches, Hempty. split.
      - intros [[]%elem_of_empty|(a & v & ? & ? & ? & Hk)].
        apply bool_decide_eq_true in Hk. split; [done|]. by exists a, v.
      - intros [Hp (a & v & ? & ? & ?)]. right. exists a, v.
        by rewrite bool_decide_eq_true. }
    split; [|split].
    + intros (p0 & Hp0 & Hc). rewrite (Hnone p0 Hp0) in Hc. done.
    + intros _. exact Halias.
    + intros p Hp. by apply Halias in Hp as [? _].
  - split; [|split].
    + intros _. exact Hdirect.
    + intros Hnone. exfalso. apply Hempty. apply set_eq. intros p.
      rewrite Hdirect. split; [|by intros []%elem_of_empty].
      intros [Hp Hc]. rewrite (Hnone p Hp) in Hc. done.
    + intros p Hp. by apply Hdirect in Hp as [? _].
Qed.

(** [Python-SDK] is named in the text, so the alias [sdk], which also occurs
    in it and points at an available product, is not consulted. *)
Lemma C5_direct_names_take_precedence_witness :
  (∃ p0, p0 ∈ ["Python-SDK"; "Go-SDK"]
         ∧ PyStr.contains (PyStr.lower p0) (PyStr.lower "Python-SDK usage") = true)
  ∧ PyStr.contains "sdk" (PyStr.lower "Python-SDK usage") = true
  ∧ Universal.find_products_by_query sdk_mapper "Python-SDK usage"
      ["Python-SDK"; "Go-SDK"] = {["Python-SDK"]}.
Proof.
  assert (∃ p0, p0 ∈ ["Python-SDK"; "Go-SDK"]
           ∧ PyStr.contains (PyStr.lower p0) (PyStr.lower "Python-SDK usage") = true)
    as Hex.
  { exists "Python-SDK". split; [apply elem_of_cons; by left|reflexivity]. }
  split; [exact Hex|]. split; [reflexivity|].
  apply set_eq. intros p.
  rewrite (proj1 (C5_direct_names_take_precedence sdk_mapper "Python-SDK usage"
                    ["Python-SDK"; "Go-SDK"]) Hex p).
  rewrite elem_of_singleton. split.
  - intros [[->|[->|[]%elem_of_nil]%elem_of_cons]%elem_of_cons Hc];
      [done|discriminate Hc].
  - intros ->. split; [apply elem_of_cons; by left|reflexivity].
Defined.
(** ** The reverse index *)

Lemma lookup_index_add_all (alias : string) (products : list string)
    (rev : gmap string (gset string)) (p : string) :
  Universal.index_add_all alias products rev !! p
  = if decide (p ∈ products)
    then Some ({[alias]} ∪ default ∅ (rev !! p))
    else rev !! p.
Proof.
  unfold Universal.index_add_all.
  revert rev. induction products as [|t ts IH]; intros rev; cbn [foldl].
  - case_decide as H; [by apply elem_of_nil in H|done].
  - rewrite IH. unfold Universal.index_add.
    destruct (decide (t = p)) as [->|Hne].
    + rewrite lookup_insert_eq. simpl.
      rewrite (decide_True _ _ (list_elem_of_here p ts)).
      case_decide; [f_equal; set_solver|done].
    + rewrite lookup_insert_ne by done.
      destruct (decide (p ∈ ts)) as [Hin|Hnin].
      * by rewrite decide_True by (by apply list_elem_of_further).
      * rewrite decide_False; [done|].
        intros [?|?]%elem_of_cons; congruence.
Qed.

Lemma elem_of_index_add_all (alias : string) (products : list string)
    (rev : gmap string (gset string)) (p a : string) :
  a ∈ default ∅ (Universal.index_add_all alias products rev !! p)
  ↔ a ∈ default ∅ (rev !! p) ∨ (a = alias ∧ p ∈ products).
Proof.
  rewrite lookup_index_add_all. case_decide as Hp; simpl.
  - rewrite elem_of_union, elem_of_singleton. naive_solver.
  - naive_solver.
Qed.

Lemma index_add_all_idemp (alias : string) (products : list string)
    (rev : gmap string (gset string)) :
  Universal.index_add_all alias products
    (Universal.index_add_all alias products rev)
  = Universal.index_add_all alias products rev.
Proof.
  apply map_eq. intros p. rewrite !lookup_index_add_all.
  case_decide; [|done]. simpl. f_equal. set_solver.
Qed.

(** ** Adding an alias *)

(** C6.  [add_alias(category, alias, targets)] leaves the category mapping
    the lowercased alias to exactly the given target list, whatever was
    stored under that key before, and leaves the other keys of the category
    alone; a second call with the same arguments changes nothing. *)
Theorem C6_add_alias_last_write_wins (m : Universal.mapper)
    (category alias : string) (targets : list string) :
  let m1 := Universal.add_alias m category alias targets false in
  let m2 := Universal.add_alias m1 category alias targets false in
  Universal.get_aliases_for_category m1 category !! PyStr.lower alias
    = Some (JList targets)
  ∧ (∀ key, key ≠ PyStr.lower alias →
       Universal.get_aliases_for_category m1 category !! key
       = Universal.get_aliases_for_category m category !! key)
  ∧ Universal.get_aliases_for_category m2 category !! PyStr.lower alias
    = Some (JList targets)
  ∧ m2 = m1.
Proof.
  intros m1 m2.
  assert (Universal.get_aliases_for_category m1 category
          = <[PyStr.lower alias := JList targets]>
              (Universal.get_aliases_for_category m category)) as H1.
  { unfold m1, Universal.add_alias, Universal.get_aliases_for_category. simpl.
    by rewrite lookup_insert_eq. }
  assert (m2 = m1) as H2.
  { unfold m2. unfold Universal.add_alias at 1.
    fold (Universal.get_aliases_for_category m1 category). rewrite H1.
    rewrite insert_insert_eq.
    unfold m1, Universal.add_alias, Universal.get_aliases_for_category. simpl.
    rewrite insert_insert_eq. f_equal.
    case_decide; [by rewrite index_add_all_idemp|done]. }
  split; [|split; [|split]].
  - by rewrite H1, lookup_insert_eq.
  - intros key Hkey. by rewrite H1, lookup_insert_ne.
  - by rewrite H2, H1, lookup_insert_eq.
  - exact H2.
Qed.
(** ** Consistency of the reverse index with the primary table *)

Lemma elem_of_build_loop (items : list (string * jvalue))
    (rev : gmap string (gset string)) (p a : string) :
  a ∈ default ∅
        (foldl (λ r '(alias, products),
                  Universal.index_add_all alias (iter_value products) r)
               rev items !! p)
  ↔ a ∈ default ∅ (rev !! p) ∨ ∃ v, (a, v) ∈ items ∧ p ∈ iter_value v.
Proof.
  revert rev. induction items as [|[a' v'] items IH]; intros rev; cbn [foldl].
  - split; [by left|]. intros [?|(? & []%elem_of_nil & _)]; done.
  - rewrite IH, elem_of_index_add_all. split.
    + intros [[?|[-> ?]]|(v & ? & ?)]; [by left| |].
      * right. exists v'. split; [by left|done].
      * right. exists v. split; [by right|done].
    + intros [?|(v & [[= -> ->]|?]%elem_of_cons & ?)]; [by auto|by auto|].
      right. by exists v.
Qed.

Lemma elem_of_build_reverse_mappings (cfg : gmap string (gmap string jvalue))
    (rev : gmap string (gset string)) (p a : string) :
  a ∈ default ∅ (Universal._build_reverse_mappings cfg rev !! p)
  ↔ a ∈ default ∅ (rev !! p)
    ∨ ∃ v, default ∅ (cfg !! "product_aliases") !! a = Some v ∧ p ∈ iter_value v.
Proof.
  unfold Universal._build_reverse_mappings. rewrite elem_of_build_loop.
  by setoid_rewrite elem_of_map_to_list.
Qed.

(** After construction the reverse index is exactly the inverse of the
    product table. *)
Lemma init_index_consistent (src : Universal.source) (writable : bool)
    (m : Universal.mapper) :
  Universal.init src writable = inr m → index_complete m ∧ index_sound m.
Proof.
  unfold Universal.init. destruct (Universal._load_aliases_config src) as [e|cfg];
    [done|]. intros [= <-].
  unfold index_complete, index_sound, Universal.get_aliases_for_product,
    Universal.get_aliases_for_category. simpl. split.
  - intros alias v product Hv Hp. apply elem_of_build_reverse_mappings.
    right. by exists v.
  - intros alias product [[]%elem_of_empty|Hv]%elem_of_build_reverse_mappings.
    exact Hv.
Qed.

Lemma save_config_product_aliases (m : Universal.mapper) :
  Universal.get_aliases_for_category (Universal.save_config m) "product_aliases"
  = Universal.get_aliases_for_category m "product_aliases".
Proof.
  unfold Universal.get_aliases_for_category, Universal.save_config. simpl.
  by rewrite lookup_insert_ne.
Qed.

(** [add_alias] keeps every pair of the product table in the index. *)
Lemma add_alias_index_complete (m : Universal.mapper) (category alias : string)
    (targets : list string) (save_to_file : bool) :
  index_complete m →
  index_complete (Universal.add_alias m category alias targets save_to_file).
Proof.
  intros Hm a v p.
  assert (∀ m', Universal.get_aliases_for_product
                  (if save_to_file then Universal.save_config m' else m') p
                = Universal.get_aliases_for_product m' p) as Hrev
    by (by destruct save_to_file).
  assert (∀ m', Universal.get_aliases_for_category
                  (if save_to_file then Universal.save_config m' else m')
                  "product_aliases"
                = Universal.get_aliases_for_category m' "product_aliases") as Hcat
    by (destruct save_to_file; [apply save_config_product_aliases|done]).
  unfold Universal.add_alias. rewrite Hrev, Hcat.
  unfold Universal.get_aliases_for_category, Universal.get_aliases_for_product.
  simpl. case_decide as Hc.
  - subst category. rewrite lookup_insert_eq. simpl.
    rewrite elem_of_index_add_all.
    destruct (decide (a = PyStr.lower alias)) as [->|Hne].
    + rewrite lookup_insert_eq. intros [= <-] Hp. by right.
    + rewrite lookup_insert_ne by done. intros Hv Hp. left. by eapply Hm.
  - rewrite lookup_insert_ne by done. apply Hm.
Qed.

(** After any sequence of operations, every pair of the product table is in
    the reverse index. *)
Lemma reachable_index_complete (m : Universal.mapper) :
  reachable m → index_complete m.
Proof.
  induction 1 as [src w m Hinit|m c a T s _ IH].
  - by apply init_index_consistent in Hinit as [? _].
  - by apply add_alias_index_complete.
Qed.

(** C4 (the code departs from it).  Loading a document in which [js] names
    [JavaScript] and then re-pointing [js] at [Rust] leaves [js] among the
    aliases reported for [JavaScript], although the product table no longer
    lists [JavaScript] under [js]. *)
Theorem C4_stale_alias_after_overwrite :
  ∃ m0, Universal.init (Universal.Parsed js_document) true = inr m0
    ∧ reachable (Universal.add_alias m0 "product_aliases" "js" ["Rust"] false)
    ∧ "js" ∈ Universal.get_aliases_for_product
               (Universal.add_alias m0 "product_aliases" "js" ["Rust"] false)
               "JavaScript"
    ∧ (Universal.get_aliases_for_category
         (Universal.add_alias m0 "product_aliases" "js" ["Rust"] false)
         "product_aliases") !! "js" = Some (JList ["Rust"])
    ∧ ("JavaScript" ∉ ["Rust"])
    ∧ ¬ index_sound (Universal.add_alias m0 "product_aliases" "js" ["Rust"] false).
Proof.
  eexists. split; [reflexivity|].
  set (m := Universal.add_alias _ _ _ _ _).
  assert ("js" ∈ Universal.get_aliases_for_product m "JavaScript") as Hin.
  { apply (bool_decide_unpack _). vm_compute. exact I. }
  assert ((Universal.get_aliases_for_category m "product_aliases") !! "js"
          = Some (JList ["Rust"])) as Hlook by reflexivity.
  assert ("JavaScript" ∉ ["Rust"]) as Hnot.
  { apply (bool_decide_unpack _). vm_compute. exact I. }
  split; [|split; [exact Hin|split; [exact Hlook|split; [exact Hnot|]]]].
  - apply reachable_add.
    apply (reachable_init (Universal.Parsed js_document) true). reflexivity.
  - intros Hsound. destruct (Hsound _ _ Hin) as (v & Hv & Hp).
    rewrite Hlook in Hv. injection Hv as <-. by apply Hnot.
Qed.
(** ** Loading the configuration *)

Lemma load_never_raises (src : Universal.source) :
  ∃ cfg, Universal._load_aliases_config src = inr cfg.
Proof. destruct src; by eexists. Qed.

(** With the source absent the load returns the empty configuration; no
    exception leaves it. *)
Lemma C3_counterexample :
  Universal._load_aliases_config Universal.Absent = inr Universal.empty_config
  ∧ ¬ ∃ msg, Universal._load_aliases_config Universal.Absent
             = inl (FileNotFoundError msg).
Proof. split; [reflexivity|]. intros [msg H]. discriminate H. Qed.

(** C3 (amended).  When the configuration source is absent or cannot be
    parsed, loading does not fail: it leaves the empty configuration, in
    which each required category (and every other category of it) is
    present as an empty mapping, and the mapper is constructed with it. *)
Theorem C3_load_degrades_to_empty (src : Universal.source) :
  src = Universal.Absent ∨ src = Universal.Malformed →
  Universal._load_aliases_config src = inr Universal.empty_config
  ∧ (∀ section, section ∈ Universal.required_sections →
       Universal.empty_config !! section = Some ∅)
  ∧ map_Forall (λ _ entries, entries = ∅) Universal.empty_config
  ∧ (∀ writable, ∃ m, Universal.init src writable = inr m
                      ∧ Universal.aliases_config m = Universal.empty_config).
Proof.
  intros Hsrc.
  assert (Universal._load_aliases_config src = inr Universal.empty_config) as Hload
    by (by destruct Hsrc as [-> | ->]).
  split; [exact Hload|]. split; [|split].
  - intros section Hs. unfold Universal.required_sections in Hs.
    repeat (apply elem_of_cons in Hs as [->|Hs]; [reflexivity|]).
    by apply elem_of_nil in Hs.
  - apply (bool_decide_unpack _). vm_compute. exact I.
  - intros writable. unfold Universal.init. rewrite Hload. by eexists.
Qed.

(** A document that does not parse. *)
Lemma C3_load_degrades_to_empty_witness :
  Universal._load_aliases_config Universal.Malformed = inr Universal.empty_config
  ∧ Universal.empty_config !! "product_aliases" = Some ∅.
Proof.
  destruct (C3_load_degrades_to_empty Universal.Malformed (or_intror eq_refl))
    as (Hload & Hreq & _).
  split; [exact Hload|]. apply Hreq. apply elem_of_cons. by left.
Defined.
(** ** The direct SQL tool *)

Section DirectFacts.

Context (Value : Type) (client : string → exn + Tools.query_result Value).

Lemma has_dangerous_true (sql_lower : string) :
  Tools.has_dangerous sql_lower = true
  ↔ ∃ keyword, keyword ∈ Tools.dangerous_keywords
               ∧ PyStr.contains keyword sql_lower = true.
Proof.
  unfold Tools.has_dangerous. rewrite existsb_exists.
  by setoid_rewrite list_elem_of_In.
Qed.

Lemma has_dangerous_false (sql_lower : string) :
  Tools.has_dangerous sql_lower = false
  ↔ ∀ keyword, keyword ∈ Tools.dangerous_keywords →
               PyStr.contains keyword sql_lower = false.
Proof.
  rewrite <-not_true_iff_false, has_dangerous_true. split.
  - intros Hno keyword Hk. apply not_true_iff_false. intros Hc.
    apply Hno. by exists keyword.
  - intros Hall (keyword & Hk & Hc). by rewrite (Hall keyword Hk) in Hc.
Qed.

(** The client sees a query only after both checks, and then exactly the
    query text as given. *)
Lemma client_called_only_after_checks (sql_query : string) :
  (Tools.execute_sql_query_direct Value client sql_query).2 ≠ [] →
  PyStr.startswith "select" (PyStr.strip (PyStr.lower sql_query)) = true
  ∧ Tools.has_dangerous (PyStr.strip (PyStr.lower sql_query)) = false
  ∧ (Tools.execute_sql_query_direct Value client sql_query).2 = [sql_query].
Proof.
  unfold Tools.execute_sql_query_direct.
  destruct (PyStr.startswith "select" _); simpl; [|done].
  destruct (Tools.has_dangerous _); simpl; [done|].
  by destruct (client sql_query).
Qed.

End DirectFacts.

(** C2.  For every query text: when its lowercased, stripped form does not
    start with [select], or contains one of [drop], [delete], [insert],
    [update], [create], [alter], [truncate] as a substring,
    [execute_sql_query_direct] returns an error dictionary and hands nothing
    to the SQL client; whenever the client is called, both checks have
    passed. *)
Theorem C2_disallowed_query_never_reaches_client (Value : Type)
    (client : string → exn + Tools.query_result Value) (sql_query : string) :
  let sql_lower := PyStr.strip (PyStr.lower sql_query) in
  ((PyStr.startswith "select" sql_lower = false
    ∨ ∃ keyword, keyword ∈ ["drop"; "delete"; "insert"; "update"; "create";
                            "alter"; "truncate"]
                 ∧ PyStr.contains keyword sql_lower = true) →
   ∃ msg, Tools.execute_sql_query_direct Value client sql_query
          = (Tools.ErrorOnly Value msg, []))
  ∧ ((Tools.execute_sql_query_direct Value client sql_query).2 ≠ [] →
     PyStr.startswith "select" sql_lower = true
     ∧ ∀ keyword, keyword ∈ ["drop"; "delete"; "insert"; "update"; "create";
                             "alter"; "truncate"] →
                  PyStr.contains keyword sql_lower = false).
Proof.
  intros sql_lower. split.
  - intros Hbad. unfold Tools.execute_sql_query_direct. fold sql_lower.
    destruct (PyStr.startswith "select" sql_lower) eqn:Hs; simpl; [|by eexists].
    destruct Hbad as [?|Hk]; [done|].
    apply has_dangerous_true in Hk. rewrite Hk. by eexists.
  - intros Hcall.
    apply client_called_only_after_checks in Hcall as (Hs & Hd & _).
    split; [exact Hs|]. by apply has_dangerous_false.
Qed.

(** [DROP TABLE X] is refused before the client is reached. *)
Lemma C2_disallowed_query_never_reaches_client_witness :
  PyStr.startswith "select" (PyStr.strip (PyStr.lower "DROP TABLE X")) = false
  ∧ ∃ msg, Tools.execute_sql_query_direct string one_row_client "DROP TABLE X"
           = (Tools.ErrorOnly string msg, []).
Proof.
  split; [reflexivity|].
  apply (proj1 (C2_disallowed_query_never_reaches_client string one_row_client
                  "DROP TABLE X")).
  left. reflexivity.
Defined.
(** ** The suggested statement *)

Lemma replace_select_head (new rest : string) :
  PyStr.replace "SELECT" new ("SELECT " +:+ rest)
  = new +:+ (" " +:+ PyStr.replace_from "SELECT" new 0 rest).
Proof. reflexivity. Qed.

Lemma str_app_empty_r (s : string) : s +:+ "" = s.
Proof.
  induction s as [|c s IH]; [done|].
  change (String c (s +:+ "") = String c s). by rewrite IH.
Qed.

(** The column list as it is printed: [*] when it is empty. *)
Lemma suggested_sql_without_filter (table_name : string) (cols : list string)
    (order_clause : string) :
  Tools.suggested_sql table_name cols "1=1" order_clause ""
  = "SELECT " +:+ match cols with [] => "*" | _ => PyStr.join ", " cols end
    +:+ " FROM " +:+ table_name
    +:+ (if String.eqb order_clause "" then "" else " " +:+ order_clause).
Proof.
  unfold Tools.suggested_sql.
  change (String.eqb "1=1" "1=1") with true. change (String.eqb "" "") with true.
  cbv iota.
  destruct (String.eqb order_clause ""); rewrite ?str_app_assoc; [|done].
  by rewrite str_app_empty_r.
Qed.

Lemma suggested_sql_limit_first (table_name : string) (cols : list string)
    (where_clause order_clause limit_clause : string) :
  limit_clause ≠ "" →
  ∃ rest, Tools.suggested_sql table_name cols where_clause order_clause limit_clause
          = "SELECT " +:+ limit_clause +:+ " " +:+ rest.
Proof.
  intros Hl. unfold Tools.suggested_sql.
  destruct (String.eqb limit_clause "") eqn:Hle;
    [by apply String.eqb_eq in Hle|].
  destruct (String.eqb where_clause "1=1"), (String.eqb order_clause "");
    rewrite ?str_app_assoc, replace_select_head, str_app_assoc; by eexists.
Qed.

(** C7.  The two statements of the specification are produced as given;
    in general a non-empty limit clause follows the leading [SELECT]
    directly, and with the filter [1=1] (and no limit) the statement is the
    column list, the table and the ordering, with no [WHERE] segment. *)
Theorem C7_suggested_sql_layout :
  Tools.suggested_sql "T" ["A"; "B"] "1=1" "" "TOP 5" = "SELECT TOP 5 A, B FROM T"
  ∧ Tools.suggested_sql "T" ["*"] "X > 1" "ORDER BY X DESC" ""
    = "SELECT * FROM T WHERE X > 1 ORDER BY X DESC"
  ∧ (∀ table_name cols where_clause order_clause limit_clause,
       limit_clause ≠ "" →
       ∃ rest,
         Tools.suggested_sql table_name cols where_clause order_clause limit_clause
         = "SELECT " +:+ limit_clause +:+ " " +:+ rest)
  ∧ (∀ table_name cols order_clause,
       Tools.suggested_sql table_name cols "1=1" order_clause ""
       = "SELECT " +:+ match cols with [] => "*" | _ => PyStr.join ", " cols end
         +:+ " FROM " +:+ table_name
         +:+ (if String.eqb order_clause "" then "" else " " +:+ order_clause)).
Proof.
  split; [reflexivity|]. split; [reflexivity|]. split.
  - apply suggested_sql_limit_first.
  - apply suggested_sql_without_filter.
Qed.

(** ** The parse orchestration *)

Lemma fallback_flags (p : AIParser.parser) (user_question : string) :
  AIParser.get_enabled_tables (AIParser.schema p) ≠ [] →
  AIParser.fallback_rule_based_parsing p user_question !! "fallback_used"
    = Some (PBool true)
  ∧ AIParser.fallback_rule_based_parsing p user_question !! "ai_parsed"
    = Some (PBool false)
  ∧ AIParser.fallback_rule_based_parsing p user_question !! "error" = None.
Proof.
  intros Htables. unfold AIParser.fallback_rule_based_parsing.
  destruct (AIParser.get_enabled_tables (AIParser.schema p)) as [|first rest];
    [done|].
  split; [reflexivity|split; reflexivity].
Qed.

(** A failed call and an unreadable answer both come back as a dictionary
    with an [error] entry. *)
Lemma parse_with_ai_failure (p : AIParser.parser) (user_question : string) :
  (AIParser.use_ai p = false
   ∨ (∃ e, AIParser.acreate (AIParser.backend p) user_question = inl e)
   ∨ (∃ content msg,
        AIParser.acreate (AIParser.backend p) user_question = inr content
        ∧ AIParser.json_loads (AIParser.backend p) (PyStr.strip content)
          = AIParser.JInvalid msg)) →
  is_Some (AIParser.parse_with_ai p user_question !! "error").
Proof.
  unfold AIParser.parse_with_ai, AIParser.error_dict.
  intros [->|[[e ->]|(content & msg & -> & ->)]]; simpl.
  - by rewrite lookup_singleton_eq.
  - destruct (AIParser.use_ai p); simpl; by rewrite lookup_singleton_eq.
  - destruct (AIParser.use_ai p); simpl; [|by rewrite lookup_singleton_eq].
    by rewrite lookup_insert_ne, lookup_singleton_eq.
Qed.

(** The call times out and no table is enabled: the rule-based result is
    the error dictionary, which has neither flag. *)
Lemma C8_counterexample :
  is_Some (AIParser.parse_with_ai stranded_parser "top 5 products" !! "error")
  ∧ AIParser.parse_user_query stranded_parser "top 5 products"
    = AIParser.fallback_rule_based_parsing stranded_parser "top 5 products"
  ∧ AIParser.parse_user_query stranded_parser "top 5 products" !! "fallback_used"
    = None
  ∧ AIParser.parse_user_query stranded_parser "top 5 products" !! "ai_parsed"
    = None.
Proof. repeat split; try reflexivity. by eexists. Qed.

(** Below in the order of binary64 numbers is not at-least. *)
Lemma SFltb_not_SFleb (a b : spec_float) : SFltb a b = true → SFleb b a = false.
Proof.
  unfold SFltb, SFleb.
  destruct a as [sa|sa| |sa ma ea], b as [sb|sb| |sb mb eb]; simpl;
    try done; try (by destruct sa); try (by destruct sb);
    try (by destruct sa, sb).
  destruct sa, sb; try done.
  - rewrite (Z.compare_antisym ea eb).
    destruct (ea ?= eb)%Z; simpl; try done.
    change (Pos.compare_cont Eq mb ma) with (Pos.compare mb ma).
    change (Pos.compare_cont Eq ma mb) with (Pos.compare ma mb).
    rewrite (Pos.compare_antisym ma mb). by destruct (ma ?= mb)%positive.
  - rewrite (Z.compare_antisym ea eb).
    destruct (ea ?= eb)%Z; simpl; try done.
    change (Pos.compare_cont Eq mb ma) with (Pos.compare mb ma).
    change (Pos.compare_cont Eq ma mb) with (Pos.compare ma mb).
    rewrite (Pos.compare_antisym ma mb). by destruct (ma ?= mb)%positive.
Qed.

Lemma float_below_not_at_least (x y : float) :
  PrimFloat.ltb x y = true → PrimFloat.leb y x = false.
Proof. rewrite ltb_spec, leb_spec. apply SFltb_not_SFleb. Qed.

(** C8 (amended).  Whenever the AI parse attempt fails (the call raises,
    the answer is not valid JSON, or the result carries an [error] entry) or
    its confidence is below 0.7 or otherwise not at least 0.7 (missing, or
    not a number), [parse_user_query] returns the rule-based result.  With
    at least one enabled table that result carries [fallback_used == True]
    and [ai_parsed == False]; with none it is the error dictionary
    [No enabled tables found].  The AI result is returned as it is only when
    it has no [error] entry and its confidence is at least 0.7, where "at
    least 0.7" is Python's [>=] against the literal: on a float the binary64
    comparison with 0.7, on an integer being at least 1, on a boolean being
    [True]. *)
Theorem C8_fallback_unless_confident (p : AIParser.parser)
    (user_question : string) :
  let ai_result := AIParser.parse_with_ai p user_question in
  let confidence := default (PInt 0) (ai_result !! "confidence") in
  let confident := AIParser.ge_threshold confidence = inr true in
  let result := AIParser.parse_user_query p user_question in
  let fallback := AIParser.fallback_rule_based_parsing p user_question in
  (((∃ e, AIParser.acreate (AIParser.backend p) user_question = inl e)
    ∨ (∃ content msg,
         AIParser.acreate (AIParser.backend p) user_question = inr content
         ∧ AIParser.json_loads (AIParser.backend p) (PyStr.strip content)
           = AIParser.JInvalid msg)
    ∨ is_Some (ai_result !! "error")
    ∨ (∃ f, confidence = PFloat f ∧ PrimFloat.ltb f 0.7%float = true)
    ∨ ¬ confident) →
   result = fallback)
  ∧ (AIParser.get_enabled_tables (AIParser.schema p) ≠ [] →
     fallback !! "fallback_used" = Some (PBool true)
     ∧ fallback !! "ai_parsed" = Some (PBool false))
  ∧ (AIParser.get_enabled_tables (AIParser.schema p) = [] →
     fallback = AIParser.error_dict "No enabled tables found")
  ∧ (result ≠ fallback →
     result = ai_result ∧ ai_result !! "error" = None ∧ confident)
  ∧ match confidence with
    | PFloat f => confident ↔ PrimFloat.leb 0.7%float f = true
    | PInt z => confident ↔ (1 ≤ z)%Z
    | PBool b => confident ↔ b = true
    | PNone | PStr _ | PStrList _ => ¬ confident
    end
  ∧ (ai_result !! "confidence" = None → ¬ confident).
Proof.
  intros ai_result confidence confident result fallback.
  assert (is_Some (ai_result !! "error") ∨ ¬ confident → result = fallback)
    as Hfall.
  { unfold result, fallback, AIParser.parse_user_query, AIParser.accept_ai.
    fold ai_result. fold confidence. intros Hbad.
    destruct (AIParser.use_ai p); [|done].
    destruct (ai_result !! "error") as [err|] eqn:Herr; [done|].
    destruct Hbad as [[? [=]]|Hlow].
    unfold confident in Hlow.
    by destruct (AIParser.ge_threshold confidence) as [e|[]]. }
  split; [|split; [|split; [|split; [|split]]]].
  - intros [Hraise|[Hjson|[Herr|[(f & Hf & Hlt)|Hlow]]]]; apply Hfall.
    + left. apply parse_with_ai_failure. by right; left.
    + left. apply parse_with_ai_failure. by right; right.
    + by left.
    + right. unfold confident. rewrite Hf. simpl.
      apply float_below_not_at_least in Hlt.
      change AIParser.threshold with 0.7%float. rewrite Hlt. discriminate.
    + by right.
  - intros Htables.
    by destruct (fallback_flags p user_question Htables) as (? & ? & _).
  - intros Hempty. unfold fallback, AIParser.fallback_rule_based_parsing.
    by rewrite Hempty.
  - unfold result, fallback, AIParser.parse_user_query, AIParser.accept_ai.
    fold ai_result. fold confidence. unfold confident.
    destruct (AIParser.use_ai p); [|done].
    destruct (ai_result !! "error") as [err|]; [done|].
    by destruct (AIParser.ge_threshold confidence) as [e|[]].
  - unfold confident. destruct confidence as [|b|z|f|s|l]; simpl; try done.
    + split; [by intros [= ->]|by intros ->].
    + split; [intros [= Hz]; by apply Z.leb_le|intros Hz%Z.leb_le; by rewrite Hz].
    + change AIParser.threshold with 0.7%float.
      split; [by intros [= ->]|by intros ->].
  - intros Hnone. unfold confident, confidence. rewrite Hnone. simpl.
    discriminate.
Qed.

(** An answer with confidence 0.4 over a schema with one table. *)
Lemma C8_fallback_unless_confident_witness :
  AIParser.get_enabled_tables (AIParser.schema unsure_parser) ≠ []
  ∧ AIParser.parse_with_ai unsure_parser "top 5 products" !! "confidence"
    = Some (PFloat 0x1.999999999999ap-2%float)
  ∧ PrimFloat.ltb 0x1.999999999999ap-2%float 0.7%float = true
  ∧ AIParser.parse_user_query unsure_parser "top 5 products" !! "fallback_used"
    = Some (PBool true)
  ∧ AIParser.parse_user_query unsure_parser "top 5 products" !! "ai_parsed"
    = Some (PBool false).
Proof.
  assert (AIParser.get_enabled_tables (AIParser.schema unsure_parser) ≠ [])
    as Htables by discriminate.
  split; [exact Htables|]. split; [reflexivity|]. split; [reflexivity|].
  destruct (C8_fallback_unless_confident unsure_parser "top 5 products")
    as (Hfall & Hflags & _).
  rewrite Hfall.
  - exact (Hflags Htables).
  - right; right; right; left.
    exists 0x1.999999999999ap-2%float. split; reflexivity.
Defined.

(** ** The month filter of the rule-based parser *)

(** In November 2026 the filter described by the specification names
    [2026-11]; the parser still answers with [2025-08]. *)
Lemma C9_counterexample :
  PyStr.contains "this month" (PyStr.lower "Usage this month") = true
  ∧ spec_month_filter 2026 11 = "Month LIKE '2026-11%'"
  ∧ AIParser.fallback_rule_based_parsing unsure_parser "Usage this month"
      !! "where_clause" = Some (PStr "Month LIKE '2025-08%'")
  ∧ AIParser.fallback_rule_based_parsing unsure_parser "Usage this month"
      !! "where_clause" ≠ Some (PStr (spec_month_filter 2026 11)).
Proof.
  split; [reflexivity|]. split; [reflexivity|]. split; [reflexivity|].
  intros H. vm_compute in H. discriminate H.
Qed.

(** C9 (amended).  With at least one enabled table, for every input text
    the rule-based parser produces the WHERE clause [Month LIKE '2025-08%'],
    a fixed literal, exactly when the lowercased text contains
    [this month], and [1=1] otherwise. *)
Theorem C9_month_filter_is_fixed (p : AIParser.parser) (user_question : string) :
  AIParser.get_enabled_tables (AIParser.schema p) ≠ [] →
  AIParser.fallback_rule_based_parsing p user_question !! "where_clause"
  = Some (PStr (if PyStr.contains "this month" (PyStr.lower user_question)
                then "Month LIKE '2025-08%'" else "1=1")).
Proof.
  intros Htables. unfold AIParser.fallback_rule_based_parsing.
  destruct (AIParser.get_enabled_tables (AIParser.schema p)) as [|first rest];
    [done|].
  by rewrite !lookup_insert_ne, lookup_insert_eq by done.
Qed.

(** A question that mentions [this month]. *)
Lemma C9_month_filter_is_fixed_witness :
  AIParser.get_enabled_tables (AIParser.schema unsure_parser) ≠ []
  ∧ AIParser.fallback_rule_based_parsing unsure_parser "top 5 this month"
      !! "where_clause" = Some (PStr "Month LIKE '2025-08%'").
Proof.
  assert (AIParser.get_enabled_tables (AIParser.schema unsure_parser) ≠ [])
    as Htables by discriminate.
  split; [exact Htables|].
  exact (C9_month_filter_is_fixed unsure_parser "top 5 this month" Htables).
Defined.

(** The whole dictionary on a sample question. *)
Example fallback_top_this_month :
  AIParser.fallback_rule_based_parsing unsure_parser "Top 5 products this month"
  = <["table_name" := PStr "ProductUsage"]> (
    <["columns" := PStrList ["Month"; "Product"; "RequestCount"]]> (
    <["where_clause" := PStr "Month LIKE '2025-08%'"]> (
    <["order_clause" := PStr "ORDER BY RequestCount DESC"]> (
    <["limit_clause" := PStr "TOP 5"]> (
    <["ai_parsed" := PBool false]> (
    <["fallback_used" := PBool true]> ∅)))))).
Proof. reflexivity. Qed.
(** ** String-valued categories of the built-in mapper *)

(** Every value of the time and quantity tables is a single string of more
    than one character. *)
Lemma time_quantity_values (category : string) (d : gmap string jvalue) :
  category = "time" ∨ category = "quantity" →
  Enhanced.getattr_aliases category = Enhanced.AttrDict d →
  ∀ alias v, d !! alias = Some v →
             ∃ s, v = JStr s ∧ (1 < String.length s)%nat.
Proof.
  intros Hc Hd.
  assert (map_Forall
            (λ _ v, match v with
                    | JStr s => bool_decide (1 < String.length s)%nat
                    | JList _ => false
                    end = true) d) as Hall.
  { destruct Hc as [-> | ->]; injection Hd as <-;
      apply (bool_decide_unpack _); vm_compute; exact I. }
  intros alias v Hv. specialize (Hall alias v Hv). simpl in Hall.
  destruct v as [s|l]; [|done]. exists s. split; [done|].
  by apply bool_decide_eq_true in Hall.
Qed.

(** C10.  For the time and quantity categories of [EnhancedAliasMapper],
    whose alias values are single strings, [find_matches] returns the set
    of the individual characters of the values of the matched aliases: every
    element is one character long, and no value is returned as a whole. *)
Theorem C10_string_values_split_into_characters (text category : string) :
  category = "time" ∨ category = "quantity" →
  ∃ d r,
    Enhanced.getattr_aliases category = Enhanced.AttrDict d
    ∧ Enhanced.find_matches text category = inr r
    ∧ (∀ x, x ∈ r ↔
         ∃ alias s, d !! alias = Some (JStr s)
                    ∧ PyStr.contains alias (PyStr.lower text) = true
                    ∧ x ∈ PyStr.chars s)
    ∧ (∀ x, x ∈ r → String.length x = 1)
    ∧ (∀ alias s, d !! alias = Some (JStr s) → s ∉ r).
Proof.
  intros Hc.
  assert (∃ d, Enhanced.getattr_aliases category = Enhanced.AttrDict d)
    as [d Hd] by (destruct Hc as [-> | ->]; by eexists).
  pose proof (time_quantity_values category d Hc Hd) as Hvals.
  exists d, (list_to_set (Enhanced.collect (PyStr.lower text) d)).
  assert (∀ x, x ∈ (list_to_set (Enhanced.collect (PyStr.lower text) d)
                    : gset string) ↔
               ∃ alias s, d !! alias = Some (JStr s)
                          ∧ PyStr.contains alias (PyStr.lower text) = true
                          ∧ x ∈ PyStr.chars s) as Hr.
  { intros x. rewrite elem_of_list_to_set, elem_of_collect. split.
    - intros (alias & v & Hv & Hin & Hx).
      destruct (Hvals alias v Hv) as (s & -> & _). by exists alias, s.
    - intros (alias & s & Hv & Hin & Hx). by exists alias, (JStr s). }
  assert (∀ x, x ∈ (list_to_set (Enhanced.collect (PyStr.lower text) d)
                    : gset string) → String.length x = 1) as Hone.
  { intros x (alias & s & _ & _ & Hx)%Hr. by eapply elem_of_chars_length. }
  split; [exact Hd|]. split; [by unfold Enhanced.find_matches; rewrite Hd|].
  split; [exact Hr|]. split; [exact Hone|].
  intros alias s Hv Hin. apply Hone in Hin.
  destruct (Hvals alias _ Hv) as (s' & [= <-] & Hlen). lia.
Qed.

(** The quantity alias [top] stands for [TOP]; matching it yields the three
    letters. *)
Lemma C10_string_values_split_into_characters_witness :
  Enhanced.quantity_aliases !! "top" = Some (JStr "TOP")
  ∧ Enhanced.find_matches "top" "quantity" = inr {[ "T"; "O"; "P" ]}
  ∧ ∃ d r, Enhanced.getattr_aliases "quantity" = Enhanced.AttrDict d
           ∧ Enhanced.find_matches "top" "quantity" = inr r
           ∧ ∀ x, x ∈ r → String.length x = 1.
Proof.
  split; [reflexivity|]. split; [vm_compute; reflexivity|].
  destruct (C10_string_values_split_into_characters "top" "quantity"
              (or_intror eq_refl)) as (d & r & Hd & Hr & _ & Hone & _).
  exists d, r. split; [exact Hd|]. split; [exact Hr|exact Hone].
Defined.
Example pretty_neg : pretty (-5)%Z = "-5". Proof. reflexivity. Qed.
Example pretty_zero : pretty 0%Z = "0". Proof. reflexivity. Qed.

(** ** More about the configured mapper *)

(** X1.  Passing an allow-list to [find_matches_by_category] gives exactly
    the unrestricted matches that are on the list. *)
Theorem X1_allow_list_filters_matches (m : Universal.mapper)
    (query_text category : string) (available_values : list string) :
  Universal.find_matches_by_category m query_text category (Some available_values)
  = filter (λ target, target ∈ available_values)
      (Universal.find_matches_by_category m query_text category None).
Proof.
  apply set_eq. intros t.
  unfold Universal.find_matches_by_category.
  rewrite elem_of_filter, !elem_of_alias_matches. split.
  - intros [[]%elem_of_empty|(a & v & ? & ? & ? & Hk)].
    apply bool_decide_eq_true in Hk. split; [done|].
    right. by exists a, v.
  - intros [Ht [[]%elem_of_empty|(a & v & ? & ? & ? & _)]].
    right. exists a, v. by rewrite bool_decide_eq_true.
Qed.

(** X2.  When no alias key of the category occurs in the text, nothing is
    matched, with or without an allow-list; in particular a category that
    the configuration does not have matches nothing. *)
Theorem X2_no_alias_in_text_no_match (m : Universal.mapper)
    (query_text category : string) (available_values : option (list string)) :
  (∀ alias v,
     Universal.get_aliases_for_category m category !! alias = Some v →
     PyStr.contains (PyStr.lower alias) (PyStr.lower query_text) = false) →
  Universal.find_matches_by_category m query_text category available_values = ∅.
Proof.
  intros Hnone. apply set_eq. intros t.
  unfold Universal.find_matches_by_category. rewrite elem_of_alias_matches.
  split; [|by intros []%elem_of_empty].
  intros [?|(a & v & Hv & Hc & _)]; [done|].
  by rewrite (Hnone a v Hv) in Hc.
Qed.

Lemma X2_no_alias_in_text_no_match_witness :
  Universal.find_matches_by_category sdk_mapper "Java usage" "product_aliases" None
  = ∅
  ∧ Universal.find_matches_by_category sdk_mapper "the sdk" "no_such_category" None
    = ∅.
Proof.
  split.
  - apply X2_no_alias_in_text_no_match.
    apply (bool_decide_unpack
             (map_Forall (λ alias _,
                PyStr.contains (PyStr.lower alias) (PyStr.lower "Java usage") = false)
                (Universal.get_aliases_for_category sdk_mapper "product_aliases"))).
    vm_compute. exact I.
  - apply X2_no_alias_in_text_no_match. intros alias v Hv.
    vm_compute in Hv. discriminate Hv.
Defined.
Lemma save_config_category (m : Universal.mapper) (category : string) :
  category ≠ "_metadata" →
  Universal.get_aliases_for_category (Universal.save_config m) category
  = Universal.get_aliases_for_category m category.
Proof.
  intros Hc. unfold Universal.get_aliases_for_category, Universal.save_config.
  simpl. by rewrite lookup_insert_ne.
Qed.

Lemma add_alias_category (m : Universal.mapper) (category alias : string)
    (targets : list string) (save_to_file : bool) :
  save_to_file = false ∨ category ≠ "_metadata" →
  Universal.get_aliases_for_category
    (Universal.add_alias m category alias targets save_to_file) category
  = <[PyStr.lower alias := JList targets]>
      (Universal.get_aliases_for_category m category).
Proof.
  intros Hs. unfold Universal.add_alias.
  assert (∀ m', Universal.get_aliases_for_category
                  (if save_to_file then Universal.save_config m' else m') category
                = Universal.get_aliases_for_category m' category) as ->.
  { intros m'. destruct save_to_file; [|done].
    destruct Hs as [?|?]; [done|]. by apply save_config_category. }
  unfold Universal.get_aliases_for_category. simpl. by rewrite lookup_insert_eq.
Qed.

Lemma add_alias_product_index (m : Universal.mapper) (category alias : string)
    (targets : list string) (save_to_file : bool) :
  Universal.product_to_aliases
    (Universal.add_alias m category alias targets save_to_file)
  = if decide (category = "product_aliases")
    then Universal.index_add_all (PyStr.lower alias) targets
           (Universal.product_to_aliases m)
    else Universal.product_to_aliases m.
Proof. unfold Universal.add_alias. by destruct save_to_file. Qed.

(** X3.  An alias that has just been added is found: for every text that
    contains the alias, in any letter case, [find_matches_by_category]
    returns each of its targets; and each target of a product alias lists
    the alias in the reverse index.  (Saving is excluded only for the
    metadata section, which [save_config] rewrites.) *)
Theorem X3_added_alias_is_found (m : Universal.mapper) (category alias : string)
    (targets : list string) (save_to_file : bool) (query_text target : string) :
  save_to_file = false ∨ category ≠ "_metadata" →
  PyStr.contains (PyStr.lower alias) (PyStr.lower query_text) = true →
  target ∈ targets →
  let m' := Universal.add_alias m category alias targets save_to_file in
  target ∈ Universal.find_matches_by_category m' query_text category None
  ∧ (category = "product_aliases" →
     PyStr.lower alias ∈ Universal.get_aliases_for_product m' target).
Proof.
  intros Hs Hc Ht m'. split.
  - unfold Universal.find_matches_by_category. rewrite elem_of_alias_matches.
    right. exists (PyStr.lower alias), (JList targets).
    unfold m'. rewrite add_alias_category by done.
    by rewrite lookup_insert_eq, lower_idemp.
  - intros ->. unfold Universal.get_aliases_for_product, m'.
    rewrite add_alias_product_index. simpl.
    apply elem_of_index_add_all. by right.
Qed.

Lemma X3_added_alias_is_found_witness :
  PyStr.contains (PyStr.lower "SDK") (PyStr.lower "Which sdk is used most?") = true
  ∧ "Go-SDK" ∈ Universal.find_matches_by_category
                 (Universal.add_alias js_mapper "product_aliases" "SDK" ["Go-SDK"] true)
                 "Which sdk is used most?" "product_aliases" None
  ∧ "sdk" ∈ Universal.get_aliases_for_product
              (Universal.add_alias js_mapper "product_aliases" "SDK" ["Go-SDK"] true)
              "Go-SDK".
Proof.
  assert ("Go-SDK" ∈ ["Go-SDK"]) as Hin by (apply elem_of_cons; by left).
  assert ("product_aliases" ≠ "_metadata") as Hne by discriminate.
  destruct (X3_added_alias_is_found js_mapper "product_aliases" "SDK" ["Go-SDK"]
              true "Which sdk is used most?" "Go-SDK" (or_intror Hne) eq_refl Hin)
    as [Hfound Hrev].
  split; [reflexivity|]. split; [exact Hfound|exact (Hrev eq_refl)].
Defined.

(** X4.  [add_alias] never takes an alias away from a product: every set of
    the reverse index keeps its members.  A category other than
    [product_aliases] leaves the index as it is, and every other category,
    the metadata section apart, keeps its table. *)
Theorem X4_add_alias_only_adds (m : Universal.mapper) (category alias : string)
    (targets : list string) (save_to_file : bool) :
  let m' := Universal.add_alias m category alias targets save_to_file in
  (∀ product a, a ∈ Universal.get_aliases_for_product m product →
                a ∈ Universal.get_aliases_for_product m' product)
  ∧ (category ≠ "product_aliases" →
     Universal.product_to_aliases m' = Universal.product_to_aliases m)
  ∧ (∀ other, other ≠ category → other ≠ "_metadata" →
       Universal.get_aliases_for_category m' other
       = Universal.get_aliases_for_category m other).
Proof.
  intros m'. split; [|split].
  - intros product a Ha. unfold Universal.get_aliases_for_product, m'.
    rewrite add_alias_product_index. case_decide; [|done].
    apply elem_of_index_add_all. by left.
  - intros Hc. unfold m'. rewrite add_alias_product_index. by case_decide.
  - intros other Ho Hmeta. unfold m', Universal.add_alias.
    transitivity (Universal.get_aliases_for_category
      {| Universal.config_file := Universal.config_file m;
         Universal.file_writable := Universal.file_writable m;
         Universal.aliases_config :=
           <[category := <[PyStr.lower alias := JList targets]>
               (default ∅ (Universal.aliases_config m !! category))]>
             (Universal.aliases_config m);
         Universal.product_to_aliases :=
           if decide (category = "product_aliases")
           then Universal.index_add_all (PyStr.lower alias) targets
                  (Universal.product_to_aliases m)
           else Universal.product_to_aliases m |} other).
    + destruct save_to_file; [by apply save_config_category|done].
    + unfold Universal.get_aliases_for_category. simpl.
      by rewrite lookup_insert_ne.
Qed.
(** X5.  After construction and any number of [add_alias] calls, every
    product listed under an alias of the product table has that alias in
    its reverse-index set. *)
Theorem X5_index_covers_table (m : Universal.mapper) (alias product : string)
    (v : jvalue) :
  reachable m →
  Universal.get_aliases_for_category m "product_aliases" !! alias = Some v →
  product ∈ iter_value v →
  alias ∈ Universal.get_aliases_for_product m product.
Proof. intros Hm. by apply reachable_index_complete. Qed.

Lemma X5_index_covers_table_witness :
  reachable repointed_mapper
  ∧ "js" ∈ Universal.get_aliases_for_product repointed_mapper "Rust".
Proof.
  assert (reachable repointed_mapper) as Hreach.
  { apply reachable_add.
    apply (reachable_init (Universal.Parsed js_document) true). reflexivity. }
  split; [exact Hreach|].
  apply (X5_index_covers_table repointed_mapper "js" "Rust" (JList ["Rust"]) Hreach).
  - reflexivity.
  - apply elem_of_cons. by left.
Defined.

(** X6.  Right after construction the reverse index is the exact inverse of
    the product table: an alias is reported for a product if and only if
    the product is among the targets stored under the alias. *)
Theorem X6_index_exact_after_construction (src : Universal.source)
    (writable : bool) (m : Universal.mapper) (alias product : string) :
  Universal.init src writable = inr m →
  alias ∈ Universal.get_aliases_for_product m product
  ↔ ∃ v, Universal.get_aliases_for_category m "product_aliases" !! alias = Some v
         ∧ product ∈ iter_value v.
Proof.
  intros [Hcomplete Hsound]%init_index_consistent. split.
  - apply Hsound.
  - intros (v & Hv & Hp). by eapply Hcomplete.
Qed.

Lemma X6_index_exact_after_construction_witness :
  Universal.init (Universal.Parsed js_document) true = inr js_mapper
  ∧ "js" ∈ Universal.get_aliases_for_product js_mapper "JavaScript".
Proof.
  split; [reflexivity|].
  apply (X6_index_exact_after_construction (Universal.Parsed js_document) true
           js_mapper "js" "JavaScript" eq_refl).
  exists (JList ["JavaScript"]). split; [reflexivity|].
  apply elem_of_cons. by left.
Defined.

(** ** Saving *)

Lemma save_config_idemp (m : Universal.mapper) :
  Universal.save_config (Universal.save_config m) = Universal.save_config m.
Proof.
  unfold Universal.save_config. simpl.
  rewrite lookup_insert_eq. simpl. rewrite !insert_insert_eq.
  by destruct (Universal.file_writable m).
Qed.

(** X7.  [save_config] changes nothing that matching reads: every category
    other than the metadata section keeps its table, so the matches of any
    text are the same, as are the products found and the reverse index.  It
    stamps [last_updated] with [2025-08-28] whether or not the file can be
    written, and saving twice is the same as saving once. *)
Theorem X7_save_config_keeps_aliases (m : Universal.mapper) :
  (∀ query_text category available_values,
     category ≠ "_metadata" →
     Universal.find_matches_by_category (Universal.save_config m)
       query_text category available_values
     = Universal.find_matches_by_category m query_text category available_values)
  ∧ (∀ query_text available_products,
       Universal.find_products_by_query (Universal.save_config m)
         query_text available_products
       = Universal.find_products_by_query m query_text available_products)
  ∧ (∀ product,
       Universal.get_aliases_for_product (Universal.save_config m) product
       = Universal.get_aliases_for_product m product)
  ∧ Universal.get_metadata (Universal.save_config m) !! "last_updated"
    = Some (JStr "2025-08-28")
  ∧ Universal.save_config (Universal.save_config m) = Universal.save_config m.
Proof.
  split; [|split; [|split; [|split]]].
  - intros q c avail Hc. unfold Universal.find_matches_by_category.
    by rewrite save_config_category.
  - intros q avail. unfold Universal.find_products_by_query.
    by rewrite save_config_category.
  - done.
  - unfold Universal.get_metadata, Universal.save_config.
    cbn [Universal.aliases_config]. rewrite lookup_insert_eq.
    simpl. by rewrite lookup_insert_eq.
  - apply save_config_idemp.
Qed.

(** X8.  Saving to a writable file and constructing a mapper from that file
    gives the saved configuration back (the JSON writer and reader being
    taken as inverse), with a reverse index that is the exact inverse of the
    product table, whatever the index of the saving mapper was. *)
Theorem X8_reload_after_save (m : Universal.mapper) (writable : bool) :
  Universal.file_writable m = true →
  ∃ m', Universal.init (Universal.config_file (Universal.save_config m)) writable
        = inr m'
        ∧ Universal.aliases_config m'
          = Universal.aliases_config (Universal.save_config m)
        ∧ index_complete m' ∧ index_sound m'.
Proof.
  intros Hw.
  assert (Universal.config_file (Universal.save_config m)
          = Universal.Parsed (Universal.aliases_config (Universal.save_config m)))
    as -> by (unfold Universal.save_config; simpl; by rewrite Hw).
  eexists. split; [reflexivity|]. split; [reflexivity|].
  apply (init_index_consistent
           (Universal.Parsed (Universal.aliases_config (Universal.save_config m)))
           writable).
  reflexivity.
Qed.

Lemma X8_reload_after_save_witness :
  Universal.file_writable repointed_mapper = true
  ∧ ¬ index_sound (Universal.save_config repointed_mapper)
  ∧ ∃ m', Universal.init
            (Universal.config_file (Universal.save_config repointed_mapper)) true
          = inr m'
          ∧ index_sound m'.
Proof.
  split; [reflexivity|]. split.
  - intros Hsound.
    assert ("js" ∈ Universal.get_aliases_for_product
              (Universal.save_config repointed_mapper) "JavaScript") as Hin.
    { apply (bool_decide_unpack _). vm_compute. exact I. }
    destruct (Hsound _ _ Hin) as (v & Hv & Hp).
    assert (v = JList ["Rust"]) as -> by (vm_compute in Hv; congruence).
    simpl in Hp. apply elem_of_cons in Hp as [?|[]%elem_of_nil]. discriminate.
  - destruct (X8_reload_after_save repointed_mapper true eq_refl)
      as (m' & Hinit & _ & _ & Hsound).
    exists m'. split; [exact Hinit|exact Hsound].
Defined.
(** ** Listing, exporting and validating the configuration *)

Lemma lookup_get_all_aliases (m : Universal.mapper) (key : string) :
  Universal.get_all_aliases m !! key
  = if PyStr.startswith "_" key then None else Universal.aliases_config m !! key.
Proof.
  unfold Universal.get_all_aliases.
  destruct (PyStr.startswith "_" key) eqn:Hk.
  - apply map_lookup_filter_None. right. intros v _ Hp.
    change (PyStr.startswith "_" key = false) in Hp. congruence.
  - destruct (Universal.aliases_config m !! key) as [v|] eqn:Hv.
    + by apply map_lookup_filter_Some.
    + apply map_lookup_filter_None. by left.
Qed.

(** X9.  The whole-configuration export holds the metadata section (an
    empty one when the configuration has none), every section whose name
    does not start with an underscore, and nothing else; so it equals the
    configuration exactly when the metadata section exists and is the only
    section whose name starts with an underscore.  With a non-empty
    category name the export has that one section, empty if unknown. *)
Theorem X9_export_contents (m : Universal.mapper) :
  (∀ key, AliasManager.export_data m None !! key
          = if decide (key = "_metadata") then Some (Universal.get_metadata m)
            else if PyStr.startswith "_" key then None
            else Universal.aliases_config m !! key)
  ∧ (is_Some (Universal.aliases_config m !! "_metadata") →
     (∀ key, is_Some (Universal.aliases_config m !! key) →
             PyStr.startswith "_" key = true → key = "_metadata") →
     AliasManager.export_data m None = Universal.aliases_config m)
  ∧ (∀ category, category ≠ "" →
       AliasManager.export_data m (Some category)
       = {[ category := Universal.get_aliases_for_category m category ]})
  ∧ AliasManager.export_data m (Some "") = AliasManager.export_data m None.
Proof.
  assert (∀ key, AliasManager.export_data m None !! key
          = if decide (key = "_metadata") then Some (Universal.get_metadata m)
            else if PyStr.startswith "_" key then None
            else Universal.aliases_config m !! key) as Hlook.
  { intros key. unfold AliasManager.export_data. case_decide as Hk.
    - subst key. by rewrite lookup_insert_eq.
    - by rewrite lookup_insert_ne, lookup_get_all_aliases. }
  split; [exact Hlook|]. split; [|split; [|done]].
  - intros [meta Hmeta] Honly. apply map_eq. intros key. rewrite Hlook.
    case_decide as Hk.
    + subst key. unfold Universal.get_metadata. by rewrite Hmeta.
    + destruct (PyStr.startswith "_" key) eqn:Hs; [|done].
      destruct (Universal.aliases_config m !! key) as [v|] eqn:Hv; [|done].
      exfalso. apply Hk. apply Honly; [by eexists|done].
  - intros category Hc. unfold AliasManager.export_data.
    destruct (String.eqb category "") eqn:He; [|done].
    by apply String.eqb_eq in He.
Qed.

Lemma elem_of_concat {A : Type} (ls : list (list A)) (x : A) :
  x ∈ concat ls ↔ ∃ l, x ∈ l ∧ l ∈ ls.
Proof.
  induction ls as [|l0 ls IH]; simpl.
  - split; [by intros ?%elem_of_nil|by intros (? & _ & ?%elem_of_nil)].
  - rewrite elem_of_app, IH. split.
    + intros [?|(l & ? & ?)]; [exists l0|exists l]; rewrite elem_of_cons; auto.
    + intros (l & ? & [->|?]%elem_of_cons); [by left|right; by exists l].
Qed.

Lemma elem_of_category_issues (category : string) (aliases : gmap string jvalue)
    (i : AliasManager.issue) :
  i ∈ AliasManager.category_issues category aliases
  ↔ (aliases = ∅ ∧ i = AliasManager.EmptyCategory category)
    ∨ ∃ alias v, aliases !! alias = Some v
                 ∧ i ∈ AliasManager.target_issues category alias v.
Proof.
  unfold AliasManager.category_issues.
  rewrite elem_of_app, elem_of_concat. split.
  - intros [Hi|(l & Hi & Hl)].
    + case_decide; [|by apply elem_of_nil in Hi].
      left. apply list_elem_of_singleton in Hi. done.
    + apply list_elem_of_fmap in Hl as ([alias v] & -> & Hav).
      apply elem_of_map_to_list in Hav. right. by exists alias, v.
  - intros [[-> ->]|(alias & v & Hv & Hi)].
    + left. rewrite decide_True by done. by apply list_elem_of_singleton.
    + right. exists (AliasManager.target_issues category alias v).
      split; [done|]. apply list_elem_of_fmap. exists (alias, v).
      split; [done|]. by apply elem_of_map_to_list.
Qed.

Lemma elem_of_validate_config (m : Universal.mapper) (i : AliasManager.issue) :
  i ∈ AliasManager.validate_config m
  ↔ (∃ category aliases,
       Universal.get_all_aliases m !! category = Some aliases
       ∧ i ∈ AliasManager.category_issues category aliases)
    ∨ (∃ field, i = AliasManager.MissingMetadata field
                ∧ field ∈ AliasManager.required_metadata
                ∧ Universal.get_metadata m !! field = None).
Proof.
  unfold AliasManager.validate_config.
  rewrite elem_of_app, elem_of_concat, list_elem_of_fmap. split.
  - intros [(l & Hi & Hl)|(field & -> & Hf)].
    + apply list_elem_of_fmap in Hl as ([category aliases] & -> & Hc).
      apply elem_of_map_to_list in Hc. left. by exists category, aliases.
    + apply list_elem_of_filter in Hf as [Hnone Hf]. right. by exists field.
  - intros [(category & aliases & Hc & Hi)|(field & -> & Hf & Hnone)].
    + left. exists (AliasManager.category_issues category aliases).
      split; [done|]. apply list_elem_of_fmap. exists (category, aliases).
      split; [done|]. by apply elem_of_map_to_list.
    + right. exists field. split; [done|]. by apply list_elem_of_filter.
Qed.

Lemma target_issues_nil (category alias : string) (v : jvalue) :
  AliasManager.target_issues category alias v = []
  ↔ AliasManager.value_truthy v = true.
Proof.
  unfold AliasManager.target_issues.
  destruct v as [s|[|t l]]; simpl; [|done..].
  by destruct (String.eqb s "").
Qed.

(** X10.  [validate_config] finds nothing exactly when every listed
    category has at least one alias, every alias has a non-empty target
    list or string, and the metadata has [version], [last_updated] and
    [description].  The finding for an empty target list under the
    [isinstance] test is never produced: an empty list is already reported
    by the test before it. *)
Theorem X10_validate_config_findings (m : Universal.mapper) :
  (AliasManager.validate_config m = []
   ↔ (∀ category aliases,
        Universal.get_all_aliases m !! category = Some aliases →
        aliases ≠ ∅
        ∧ ∀ alias v, aliases !! alias = Some v →
                     AliasManager.value_truthy v = true)
     ∧ (∀ field, field ∈ ["version"; "last_updated"; "description"] →
                 is_Some (Universal.get_metadata m !! field)))
  ∧ (∀ alias category,
       AliasManager.EmptyTargetList alias category
       ∉ AliasManager.validate_config m)
  ∧ (∀ alias category v,
       Universal.get_all_aliases m !! category = Some v →
       v !! alias = Some (JList []) →
       AliasManager.NoTargets alias category ∈ AliasManager.validate_config m).
Proof.
  split; [|split].
  - split.
    + intros Hnil.
      assert (∀ i, i ∉ AliasManager.validate_config m) as Hno
        by (intros i; rewrite Hnil; apply not_elem_of_nil).
      split.
      * intros category aliases Hc. split.
        -- intros ->. apply (Hno (AliasManager.EmptyCategory category)).
           apply elem_of_validate_config. left. exists category, ∅.
           split; [done|]. apply elem_of_category_issues. by left.
        -- intros alias v Hv. apply (target_issues_nil category alias).
           destruct (AliasManager.target_issues category alias v) as [|i l] eqn:Hi;
             [done|].
           exfalso. apply (Hno i). apply elem_of_validate_config. left.
           exists category, aliases. split; [done|].
           apply elem_of_category_issues. right. exists alias, v.
           split; [done|]. rewrite Hi. by left.
      * intros field Hf.
        destruct (Universal.get_metadata m !! field) eqn:Hm; [by eexists|].
        exfalso. apply (Hno (AliasManager.MissingMetadata field)).
        apply elem_of_validate_config. right. by exists field.
    + intros [Hcats Hmeta].
      destruct (AliasManager.validate_config m) as [|i l] eqn:Hv; [done|].
      exfalso.
      assert (i ∈ AliasManager.validate_config m) as Hi by (rewrite Hv; by left).
      apply elem_of_validate_config in Hi
        as [(category & aliases & Hc & Hi)|(field & -> & Hf & Hnone)].
      * destruct (Hcats category aliases Hc) as [Hne Hall].
        apply elem_of_category_issues in Hi as [[-> _]|(alias & v & Hav & Hi)];
          [done|].
        specialize (Hall alias v Hav).
        apply (target_issues_nil category alias) in Hall.
        rewrite Hall in Hi. by apply elem_of_nil in Hi.
      * destruct (Hmeta field Hf) as [x Hx]. congruence.
  - intros alias category
      [(c & aliases & Hc & Hi)|(field & [=] & _)]%elem_of_validate_config.
    apply elem_of_category_issues in Hi as [[_ [=]]|(a & v & _ & Hi)].
    unfold AliasManager.target_issues in Hi.
    destruct v as [s|[|t l]]; simpl in Hi.
    + destruct (String.eqb s ""); simpl in Hi;
        [apply list_elem_of_singleton in Hi; discriminate
        |by apply elem_of_nil in Hi].
    + apply list_elem_of_singleton in Hi. discriminate.
    + by apply elem_of_nil in Hi.
  - intros alias category v Hc Hv. apply elem_of_validate_config. left.
    exists category, v. split; [done|]. apply elem_of_category_issues.
    right. exists alias, (JList []). split; [done|]. by left.
Qed.
(** ** Category names of the built-in mapper *)

(** X11.  [find_matches] of the built-in mapper raises exactly for the
    category [get_all], whose attribute is the method [get_all_aliases];
    for every category other than that and the seven table names it
    returns the empty set, whatever the text. *)
Theorem X11_builtin_category_lookup (text category : string) :
  ((∃ e, Enhanced.find_matches text category = inl e) ↔ category = "get_all")
  ∧ (category ∉ ["product"; "os"; "http_method"; "provider"; "resource";
                 "time"; "quantity"; "get_all"] →
     Enhanced.find_matches text category = inr ∅).
Proof.
  unfold Enhanced.find_matches, Enhanced.getattr_aliases. split.
  - split.
    + intros [e He]. repeat case_decide; try discriminate He. done.
    + intros ->. by eexists.
  - intros Hnot. rewrite !not_elem_of_cons in Hnot.
    destruct Hnot as (? & ? & ? & ? & ? & ? & ? & ? & _).
    by rewrite !decide_False by done.
Qed.

(** X12.  Of the seven names under which [get_all_aliases] lists the
    tables, only [os] is a category that [find_matches] knows: for each of
    the other six it returns the empty set for every text. *)
Theorem X12_listed_names_are_not_categories (text key : string) :
  is_Some (Enhanced.get_all_aliases !! key) →
  (key = "os" ∧ Enhanced.getattr_aliases key = Enhanced.AttrDict Enhanced.os_aliases
               ∧ Enhanced.get_all_aliases !! key = Some Enhanced.os_aliases)
  ∨ (key ≠ "os" ∧ Enhanced.find_matches text key = inr ∅).
Proof.
  intros Hkey. apply elem_of_dom in Hkey.
  assert (dom Enhanced.get_all_aliases
          = list_to_set ["products"; "os"; "http_methods"; "providers";
                         "resources"; "time_expressions"; "quantity_expressions"]
            :> gset string) as Hdom by (vm_compute; reflexivity).
  rewrite Hdom in Hkey. apply elem_of_list_to_set in Hkey.
  repeat (apply elem_of_cons in Hkey as [->|Hkey];
          [first [left; repeat split; reflexivity
                 |right; split; [discriminate|reflexivity]]|]).
  by apply elem_of_nil in Hkey.
Qed.

Lemma X12_listed_names_are_not_categories_witness :
  is_Some (Enhanced.get_all_aliases !! "products")
  ∧ Enhanced.find_matches "python and js" "products" = inr ∅
  ∧ Enhanced.find_matches "python and js" "product"
    = inr (list_to_set ["Python-SDK"; "JavaScript"; "JavaScript (Node.JS)";
                        "JavaScript RLC"]).
Proof.
  assert (is_Some (Enhanced.get_all_aliases !! "products")) as Hkey
    by (by eexists).
  split; [exact Hkey|]. split; [|vm_compute; reflexivity].
  destruct (X12_listed_names_are_not_categories "python and js" "products" Hkey)
    as [[Heq _]|[_ Hempty]]; [discriminate Heq|exact Hempty].
Defined.
(** ** Sample data and result rows *)

Lemma rstrip_cons_nonspace (c : ascii) (s : string) :
  PyStr.isspace c = false → PyStr.rstrip (String c s) = String c (PyStr.rstrip s).
Proof. intros Hc. simpl. destruct (PyStr.rstrip s); by rewrite ?Hc. Qed.

Lemma sample_statement_is_select (rest : string) :
  PyStr.startswith "select"
    (PyStr.strip (PyStr.lower ("SELECT TOP " +:+ rest))) = true.
Proof.
  change (PyStr.lower ("SELECT TOP " +:+ rest))
    with (String "s" (String "e" (String "l" (String "e" (String "c"
           (String "t" (" top " +:+ PyStr.lower rest))))))).
  unfold PyStr.strip. cbn [PyStr.lstrip].
  change (PyStr.isspace "s") with false. cbv iota.
  by rewrite !rstrip_cons_nonspace by reflexivity.
Qed.

Section SampleFacts.

Context (Value : Type) (client : string → exn + Tools.query_result Value).

(** X13.  [get_sample_data] is never turned away as a non-SELECT
    statement.  It is refused, without a call to the SQL client, exactly
    when the lowercased statement [SELECT TOP <limit> * FROM <table>]
    contains one of the prohibited words, which a table name can bring in;
    otherwise the client receives that statement and nothing else. *)
Theorem X13_sample_data_statement (table_name : string) (limit : Z) :
  let statement := "SELECT TOP " +:+ pretty limit +:+ " * FROM " +:+ table_name in
  let sql_lower := PyStr.strip (PyStr.lower statement) in
  (Tools.get_sample_data Value client table_name limit).1
    ≠ Tools.ErrorOnly Value "Only SELECT queries are allowed"
  ∧ ((∃ keyword, keyword ∈ Tools.dangerous_keywords
                 ∧ PyStr.contains keyword sql_lower = true) →
     Tools.get_sample_data Value client table_name limit
     = (Tools.ErrorOnly Value "Query contains prohibited operations", []))
  ∧ ((∀ keyword, keyword ∈ Tools.dangerous_keywords →
                 PyStr.contains keyword sql_lower = false) →
     (Tools.get_sample_data Value client table_name limit).2 = [statement]).
Proof.
  intros statement sql_lower.
  unfold Tools.get_sample_data, Tools.execute_sql_query_direct.
  fold statement. fold sql_lower.
  assert (PyStr.startswith "select" sql_lower = true) as ->
    by apply sample_statement_is_select.
  cbn [negb]. split; [|split].
  - destruct (Tools.has_dangerous sql_lower); [done|].
    by destruct (client statement).
  - intros Hk%has_dangerous_true. by rewrite Hk.
  - intros Hk%has_dangerous_false. rewrite Hk. by destruct (client statement).
Qed.

End SampleFacts.

Lemma X13_sample_data_statement_witness :
  Tools.get_sample_data string one_row_client "UpdateLog" 5
  = (Tools.ErrorOnly string "Query contains prohibited operations", [])
  ∧ (Tools.get_sample_data string one_row_client "ProductUsage" 5).2
    = ["SELECT TOP 5 * FROM ProductUsage"].
Proof.
  split.
  - apply (proj1 (proj2 (X13_sample_data_statement string one_row_client
                           "UpdateLog" 5))).
    exists "update". split; [|reflexivity].
    do 3 apply list_elem_of_further. apply list_elem_of_here.
  - apply (proj2 (proj2 (X13_sample_data_statement string one_row_client
                           "ProductUsage" 5))).
    apply has_dangerous_false. reflexivity.
Defined.
Section RowFacts.

Context (Value : Type) (cols : list string).

Lemma format_row_fold (row : list Value) :
  Tools.format_row Value cols row
  = foldl (put_cell cols) ∅ (imap (λ i value, (i, value)) row).
Proof.
  unfold Tools.format_row.
  generalize (∅ : gmap string Value) (imap (λ i value, (i, value)) row).
  intros d ivs. revert d. induction ivs as [|[i v] ivs IH]; intros d; [done|].
  cbn [foldl]. by rewrite IH.
Qed.

Lemma put_loop_other (ivs : list (nat * Value)) (d : gmap string Value)
    (k : string) :
  (∀ iv, iv ∈ ivs → column_name cols iv.1 ≠ k) →
  foldl (put_cell cols) d ivs !! k = d !! k.
Proof.
  revert d. induction ivs as [|iv ivs IH]; intros d Hk; [done|].
  cbn [foldl]. rewrite IH by (intros ??; apply Hk; by right).
  unfold put_cell. rewrite lookup_insert_ne; [done|]. apply Hk. by left.
Qed.

Lemma put_loop_unique (ivs : list (nat * Value)) (d : gmap string Value)
    (i : nat) (v : Value) :
  NoDup ivs.*1 →
  (i, v) ∈ ivs →
  (∀ iv, iv ∈ ivs → column_name cols iv.1 = column_name cols i → iv.1 = i) →
  foldl (put_cell cols) d ivs !! column_name cols i = Some v.
Proof.
  revert d. induction ivs as [|[j w] ivs IH]; intros d Hnd Hin Hinj.
  - by apply elem_of_nil in Hin.
  - cbn [foldl]. apply NoDup_cons in Hnd as [Hj Hnd].
    apply elem_of_cons in Hin as [[= <- <-]|Hin].
    + rewrite put_loop_other.
      * unfold put_cell. simpl. apply lookup_insert_eq.
      * intros [j w] Hjw Hkey. apply Hj.
        rewrite <-(Hinj (j, w) (list_elem_of_further _ _ _ Hjw) Hkey).
        apply list_elem_of_fmap. by exists (j, w).
    + apply IH; [done..|]. intros iv Hiv. apply Hinj. by right.
Qed.

Lemma indexed_row_indices (row : list Value) :
  (imap (λ i value, (i, value)) row).*1 = seq 0 (length row).
Proof.
  rewrite fmap_imap, <-(list_fmap_id (seq 0 (length row))), <-imap_seq_0.
  by apply imap_ext.
Qed.

(** A cell is found under its column name when no other position of the
    row has the same name. *)
Lemma format_row_lookup (row : list Value) (i : nat) (v : Value) :
  row !! i = Some v →
  (∀ j, j < length row → column_name cols j = column_name cols i → j = i) →
  Tools.format_row Value cols row !! column_name cols i = Some v.
Proof.
  intros Hi Hinj. rewrite format_row_fold. apply put_loop_unique.
  - rewrite indexed_row_indices. apply NoDup_seq.
  - by apply (elem_of_lookup_imap_2 (λ i value, (i, value))).
  - intros [j w] (j' & w' & [= -> ->] & Hj)%elem_of_lookup_imap Hkey.
    simpl in *. apply Hinj; [|done]. by eapply lookup_lt_Some.
Qed.

End RowFacts.

(** X14.  When the SQL client answers a permitted query with distinct
    column names, the tool reports one dictionary per row and the number of
    rows, and in each row every cell that has a column is found under that
    column's name. *)
Theorem X14_cells_under_their_columns (Value : Type)
    (client : string → exn + Tools.query_result Value) (sql_query : string)
    (rs : list (list Value)) (cols : list string) :
  PyStr.startswith "select" (PyStr.strip (PyStr.lower sql_query)) = true →
  Tools.has_dangerous (PyStr.strip (PyStr.lower sql_query)) = false →
  client sql_query = inr {| Tools.rows := Some rs; Tools.columns := Some cols |} →
  NoDup cols →
  ∃ data,
    Tools.execute_sql_query_direct Value client sql_query
    = (Tools.Success Value sql_query data (length rs) cols, [sql_query])
    ∧ length data = length rs
    ∧ ∀ n row i c v,
        rs !! n = Some row → (length row ≤ length cols)%nat →
        cols !! i = Some c → row !! i = Some v →
        ∃ d, data !! n = Some d ∧ d !! c = Some v.
Proof.
  intros Hsel Hsafe Hclient Hnd.
  exists (Tools.format_row Value cols <$> rs).
  unfold Tools.execute_sql_query_direct. rewrite Hsel, Hsafe, Hclient. simpl.
  rewrite length_fmap. split; [done|]. split; [done|].
  intros n row i c v Hrow Hlen Hc Hv.
  exists (Tools.format_row Value cols row). split.
  - by rewrite list_lookup_fmap, Hrow.
  - assert (column_name cols i = c) as <- by (unfold column_name; by rewrite Hc).
    apply format_row_lookup; [done|].
    intros j Hj. unfold column_name. rewrite Hc.
    destruct (cols !! j) as [c'|] eqn:Hc'.
    + intros ->. by eapply NoDup_lookup.
    + apply lookup_ge_None in Hc'. lia.
Qed.

Lemma X14_cells_under_their_columns_witness :
  ∃ data d,
    Tools.execute_sql_query_direct string two_column_client "select * from T"
    = (Tools.Success string "select * from T" data 2 ["Month"; "RequestCount"],
       ["select * from T"])
    ∧ data !! 1 = Some d ∧ d !! "RequestCount" = Some "42".
Proof.
  destruct (X14_cells_under_their_columns string two_column_client
              "select * from T" [["2025-07"; "17"]; ["2025-08"; "42"]]
              ["Month"; "RequestCount"] eq_refl eq_refl eq_refl)
    as (data & Hrun & _ & Hcells).
  - apply (bool_decide_unpack _). vm_compute. exact I.
  - destruct (Hcells 1 ["2025-08"; "42"] 1 "RequestCount" "42"
                eq_refl (le_n 2) eq_refl eq_refl) as (d & Hd & Hv).
    exists data, d. split; [exact Hrun|]. split; [exact Hd|exact Hv].
Defined.

(** ** The suggested statement and every [SELECT] in it *)

Lemma replace_from_absent (old new s : string) :
  PyStr.contains old s = false → PyStr.replace_from old new 0 s = s.
Proof.
  induction s as [|c s IH]; [done|].
  cbn [PyStr.contains PyStr.replace_from].
  intros [Hhead Htail]%orb_false_iff. rewrite Hhead. by rewrite IH.
Qed.

(** Whether a text starts with [SELECT] is decided by its first six
    characters. *)
Lemma select_window (c : ascii) (x post : string) :
  PyStr.startswith "SELECT" (String c x +:+ "SELECT" +:+ post)
  = PyStr.startswith "SELECT" (String c x +:+ "SELEC").
Proof.
  destruct x as [|c2 [|c3 [|c4 [|c5 [|c6 x]]]]]; reflexivity.
Qed.

(** The leftmost [SELECT] is replaced and the text after it is treated in
    the same way. *)
Lemma replace_select_leftmost (new pre post : string) :
  PyStr.contains "SELECT" (pre +:+ "SELEC") = false →
  PyStr.replace "SELECT" new (pre +:+ "SELECT" +:+ post)
  = pre +:+ new +:+ PyStr.replace "SELECT" new post.
Proof.
  induction pre as [|c pre IH]; [reflexivity|].
  change (String c pre +:+ "SELEC") with (String c (pre +:+ "SELEC")).
  cbn [PyStr.contains]. intros [Hhead Hrest]%orb_false_iff.
  change (PyStr.startswith "SELECT" (String c pre +:+ "SELEC") = false) in Hhead.
  rewrite <-(select_window c pre post) in Hhead.
  change (PyStr.replace "SELECT" new (String c pre +:+ "SELECT" +:+ post))
    with (if PyStr.startswith "SELECT" (String c pre +:+ "SELECT" +:+ post)
          then new +:+ PyStr.replace_from "SELECT" new 5
                         (pre +:+ "SELECT" +:+ post)
          else String c (PyStr.replace "SELECT" new (pre +:+ "SELECT" +:+ post))).
  rewrite Hhead, (IH Hrest). reflexivity.
Qed.

(** X15.  Let [tail] be the column list ([*] when empty), [FROM] and the
    table, then [WHERE] and the filter unless the filter is [1=1] (an empty
    filter leaves a bare [WHERE]), then the ordering if any.  Without a limit
    clause the suggested statement is [SELECT] followed by [tail].  With a
    limit clause it is [SELECT], the limit clause, and [tail] passed through
    the replacement of [SELECT] by [SELECT <limit>]: [tail] is unchanged
    when the word [SELECT] does not occur in it, and otherwise its leftmost
    [SELECT] is rewritten and the text after it treated in the same way, so
    that every further [SELECT] of the statement is rewritten too. *)
Theorem X15_suggested_sql_exact (table_name : string) (cols : list string)
    (where_clause order_clause limit_clause : string) :
  let tail :=
    match cols with [] => "*" | _ => PyStr.join ", " cols end
    +:+ " FROM " +:+ table_name
    +:+ (if String.eqb where_clause "1=1" then ""
         else " WHERE " +:+ where_clause)
    +:+ (if String.eqb order_clause "" then "" else " " +:+ order_clause) in
  let suggested :=
    Tools.suggested_sql table_name cols where_clause order_clause limit_clause in
  Tools.suggested_sql table_name cols where_clause order_clause ""
  = "SELECT " +:+ tail
  ∧ (limit_clause ≠ "" →
     PyStr.contains "SELECT" tail = false →
     suggested = "SELECT " +:+ limit_clause +:+ " " +:+ tail)
  ∧ (limit_clause ≠ "" →
     suggested
     = "SELECT " +:+ limit_clause +:+ " "
       +:+ PyStr.replace "SELECT" ("SELECT " +:+ limit_clause) tail)
  ∧ (limit_clause ≠ "" →
     ∀ pre post,
       tail = pre +:+ "SELECT" +:+ post →
       PyStr.contains "SELECT" (pre +:+ "SELEC") = false →
       suggested
       = "SELECT " +:+ limit_clause +:+ " " +:+ pre
         +:+ "SELECT " +:+ limit_clause
         +:+ PyStr.replace "SELECT" ("SELECT " +:+ limit_clause) post)
  ∧ (∀ new s,
       PyStr.contains "SELECT" s = false → PyStr.replace "SELECT" new s = s)
  ∧ (∀ new pre post,
       PyStr.contains "SELECT" (pre +:+ "SELEC") = false →
       PyStr.replace "SELECT" new (pre +:+ "SELECT" +:+ post)
       = pre +:+ new +:+ PyStr.replace "SELECT" new post).
Proof.
  intros tail suggested.
  assert (∀ limit,
            Tools.suggested_sql table_name cols where_clause order_clause limit
            = if String.eqb limit "" then "SELECT " +:+ tail
              else PyStr.replace "SELECT" ("SELECT " +:+ limit)
                     ("SELECT " +:+ tail)) as Hshape.
  { intros limit. unfold Tools.suggested_sql, tail.
    destruct (String.eqb where_clause "1=1"), (String.eqb order_clause "");
      by rewrite ?str_app_assoc, ?str_app_empty_r. }
  assert (limit_clause ≠ "" →
          suggested
          = "SELECT " +:+ limit_clause +:+ " "
            +:+ PyStr.replace "SELECT" ("SELECT " +:+ limit_clause) tail)
    as Hgeneral.
  { intros Hl. unfold suggested. rewrite Hshape.
    destruct (String.eqb limit_clause "") eqn:Hle;
      [by apply String.eqb_eq in Hle|].
    rewrite replace_select_head. by rewrite str_app_assoc. }
  split; [by rewrite Hshape|].
  split; [|split; [exact Hgeneral|split; [|split]]].
  - intros Hl Habsent. rewrite (Hgeneral Hl).
    change (PyStr.replace "SELECT" ("SELECT " +:+ limit_clause) tail)
      with (PyStr.replace_from "SELECT" ("SELECT " +:+ limit_clause) 0 tail).
    by rewrite replace_from_absent.
  - intros Hl pre post Htail Hleft. rewrite (Hgeneral Hl), Htail.
    rewrite replace_select_leftmost by done.
    by rewrite !str_app_assoc.
  - intros new s Habsent. by apply (replace_from_absent "SELECT" new s).
  - intros new pre post. apply replace_select_leftmost.
Qed.

(** A bare [WHERE] after an empty filter, and a table name that itself
    contains [SELECT]. *)
Lemma X15_suggested_sql_exact_witness :
  Tools.suggested_sql "ProductUsage" ["Month"; "Product"] "" "" "TOP 3"
  = "SELECT TOP 3 Month, Product FROM ProductUsage WHERE "
  ∧ Tools.suggested_sql "SELECTIONS" [] "1=1" "" "TOP 3"
    = "SELECT TOP 3 * FROM SELECT TOP 3IONS".
Proof.
  split.
  - apply (proj1 (proj2 (X15_suggested_sql_exact "ProductUsage"
                           ["Month"; "Product"] "" "" "TOP 3"))).
    + discriminate.
    + reflexivity.
  - apply (proj1 (proj2 (proj2 (proj2 (X15_suggested_sql_exact "SELECTIONS" []
                                         "1=1" "" "TOP 3"))))
             ltac:(discriminate) "* FROM " "IONS"); reflexivity.
Defined.

(** ** Results of the AI parse and of the orchestration *)

Lemma clean_where_result (result cleaned : gmap string pyval) :
  AIParser.clean_where result = inr cleaned →
  (∃ w, cleaned !! "where_clause" = Some (PStr w) ∧ PyStr.strip w ≠ "")
  ∧ ∀ key, key ≠ "where_clause" → cleaned !! key = result !! key.
Proof.
  unfold AIParser.clean_where.
  assert ((∃ w, <["where_clause" := PStr "1=1"]> result !! "where_clause"
                = Some (PStr w) ∧ PyStr.strip w ≠ "")
          ∧ ∀ key, key ≠ "where_clause" →
                   <["where_clause" := PStr "1=1"]> result !! key = result !! key)
    as Hdefault.
  { split; [|by intros key Hk; rewrite lookup_insert_ne].
    exists "1=1". by rewrite lookup_insert_eq. }
  destruct (result !! "where_clause") as [v|] eqn:Hv;
    [|by intros [= <-]].
  destruct (truthy v); simpl; [|by intros [= <-]].
  destruct v as [| | | |w|]; try done.
  destruct (String.eqb (PyStr.strip w) "") eqn:Hw; intros [= <-]; [done|].
  split; [|done]. exists w. split; [done|]. by apply String.eqb_neq.
Qed.

Lemma parse_with_ai_validated (p : AIParser.parser) (user_question : string) :
  AIParser.parse_with_ai p user_question !! "error" = None →
  let result := AIParser.parse_with_ai p user_question in
  AIParser.use_ai p = true
  ∧ result !! "ai_parsed" = Some (PBool true)
  ∧ result !! "original_question" = Some (PStr user_question)
  ∧ (∃ table_key info,
       (table_key, info) ∈ AIParser.get_enabled_tables (AIParser.schema p)
       ∧ result !! "table_name" = Some (PStr (AIParser.name info)))
  ∧ (∃ w, result !! "where_clause" = Some (PStr w) ∧ PyStr.strip w ≠ "").
Proof.
  intros Herr result. revert Herr. unfold result, AIParser.parse_with_ai.
  assert (∀ msg, AIParser.error_dict msg !! "error" ≠ None) as Hdict
    by (intros msg; unfold AIParser.error_dict; by rewrite lookup_singleton_eq).
  destruct (AIParser.use_ai p); simpl; [|by intros ?%Hdict].
  destruct (AIParser.acreate _ _) as [e|content]; [by intros ?%Hdict|].
  destruct (AIParser.json_loads _ _) as [msg|msg|answer];
    [rewrite lookup_insert_ne by done; by intros ?%Hdict|by intros ?%Hdict|].
  destruct (filter _ AIParser.required_fields); [|by intros ?%Hdict].
  destruct (AIParser.table_found _ _) eqn:Hfound; simpl; [|by intros ?%Hdict].
  destruct (AIParser.clean_where answer) as [e|cleaned] eqn:Hclean;
    [by intros ?%Hdict|].
  intros _.
  destruct (clean_where_result _ _ Hclean) as [(w & Hw & Hblank) Hsame].
  split; [done|]. split; [by rewrite lookup_insert_ne, lookup_insert_eq|].
  split; [by rewrite lookup_insert_eq|]. split.
  - unfold AIParser.table_found in Hfound.
    destruct (answer !! "table_name") as [[| | | |t|]|] eqn:Ht; try done.
    simpl in Hfound. apply existsb_exists in Hfound as ([key info] & Hin & Heq).
    apply String.eqb_eq in Heq. simpl in Heq. subst t.
    exists key, info. split; [by apply list_elem_of_In|].
    by rewrite !lookup_insert_ne, Hsame, Ht.
  - exists w. by rewrite !lookup_insert_ne.
Qed.

(** X16.  Whenever [parse_with_ai] returns a dictionary without an [error]
    entry, AI parsing is enabled, the dictionary carries [ai_parsed == True]
    and the question, its table is the name of an enabled table, and its
    [where_clause] is a string that is not blank (a missing, empty or blank
    one has become [1=1]). *)
Theorem X16_ai_result_is_validated (p : AIParser.parser) (user_question : string) :
  AIParser.parse_with_ai p user_question !! "error" = None →
  let result := AIParser.parse_with_ai p user_question in
  AIParser.use_ai p = true
  ∧ result !! "ai_parsed" = Some (PBool true)
  ∧ result !! "original_question" = Some (PStr user_question)
  ∧ (∃ table_key info,
       (table_key, info) ∈ AIParser.get_enabled_tables (AIParser.schema p)
       ∧ result !! "table_name" = Some (PStr (AIParser.name info)))
  ∧ (∃ w, result !! "where_clause" = Some (PStr w) ∧ PyStr.strip w ≠ "").
Proof. apply parse_with_ai_validated. Qed.

Lemma X16_ai_result_is_validated_witness :
  AIParser.parse_with_ai sure_parser "requests per month" !! "error" = None
  ∧ AIParser.parse_with_ai sure_parser "requests per month" !! "where_clause"
    = Some (PStr "1=1")
  ∧ AIParser.parse_with_ai sure_parser "requests per month" !! "ai_parsed"
    = Some (PBool true).
Proof.
  split; [reflexivity|]. split; [reflexivity|].
  exact (proj1 (proj2 (X16_ai_result_is_validated sure_parser
                         "requests per month" eq_refl))).
Defined.

(** X17.  [parse_user_query] returns a dictionary with an [error] entry if
    and only if the schema has no enabled table; the entry is then
    [No enabled tables found], whatever the AI backend did. *)
Theorem X17_error_only_without_tables (p : AIParser.parser)
    (user_question : string) :
  (is_Some (AIParser.parse_user_query p user_question !! "error")
   ↔ AIParser.get_enabled_tables (AIParser.schema p) = [])
  ∧ (AIParser.get_enabled_tables (AIParser.schema p) = [] →
     AIParser.parse_user_query p user_question
     = AIParser.error_dict "No enabled tables found").
Proof.
  assert (AIParser.get_enabled_tables (AIParser.schema p) = [] →
          AIParser.parse_user_query p user_question
          = AIParser.error_dict "No enabled tables found") as Hnone.
  { intros Hempty.
    assert (AIParser.fallback_rule_based_parsing p user_question
            = AIParser.error_dict "No enabled tables found") as Hfall
      by (unfold AIParser.fallback_rule_based_parsing; by rewrite Hempty).
    unfold AIParser.parse_user_query, AIParser.accept_ai.
    destruct (AIParser.use_ai p) eqn:Hai; [|done].
    destruct (AIParser.parse_with_ai p user_question !! "error") eqn:Herr;
      [done|].
    destruct (parse_with_ai_validated p user_question Herr)
      as (_ & _ & _ & (key & info & Hin & _) & _).
    rewrite Hempty in Hin. by apply elem_of_nil in Hin. }
  split; [|exact Hnone]. split.
  - intros Herr.
    destruct (AIParser.get_enabled_tables (AIParser.schema p)) as [|t ts] eqn:Ht;
      [done|]. exfalso.
    assert (AIParser.get_enabled_tables (AIParser.schema p) ≠ []) as Hne
      by (by rewrite Ht).
    destruct (fallback_flags p user_question Hne) as (_ & _ & Hnoerr).
    revert Herr. unfold AIParser.parse_user_query, AIParser.accept_ai.
    destruct (AIParser.use_ai p);
      [|by rewrite Hnoerr; intros []].
    destruct (AIParser.parse_with_ai p user_question !! "error") eqn:Hai;
      [by rewrite Hnoerr; intros []|].
    destruct (AIParser.ge_threshold _) as [e|[]];
      rewrite ?Hnoerr, ?Hai; by intros [].
  - intros Hempty. rewrite (Hnone Hempty). unfold AIParser.error_dict.
    by rewrite lookup_singleton_eq.
Qed.
(** ** The rule-based parser *)

Lemma take_while_all (test : ascii → bool) (s : string) :
  all_chars test (PyStr.take_while test s) = true.
Proof.
  induction s as [|c s IH]; [done|]. simpl.
  destruct (test c) eqn:Hc; [|done]. simpl. by rewrite Hc.
Qed.

Lemma match_top_at_some (s digits : string) :
  PyStr.match_top_at s = Some digits →
  PyStr.startswith "top" s = true
  ∧ digits ≠ "" ∧ all_chars PyStr.isdigit digits = true.
Proof.
  unfold PyStr.match_top_at.
  destruct s as [|c1 [|c2 [|c3 rest]]]; try done;
    try (destruct c1 as [[] [] [] [] [] [] [] []]; done);
    try (destruct c1 as [[] [] [] [] [] [] [] []]; try done;
         destruct c2 as [[] [] [] [] [] [] [] []]; done).
  destruct (Ascii.eqb c1 "t") eqn:H1; [apply Ascii.eqb_eq in H1 as ->|];
    [|destruct c1 as [[] [] [] [] [] [] [] []]; done].
  destruct (Ascii.eqb c2 "o") eqn:H2; [apply Ascii.eqb_eq in H2 as ->|];
    [|destruct c2 as [[] [] [] [] [] [] [] []]; done].
  destruct (Ascii.eqb c3 "p") eqn:H3; [apply Ascii.eqb_eq in H3 as ->|];
    [|destruct c3 as [[] [] [] [] [] [] [] []]; done].
  destruct rest as [|c rest]; [done|].
  destruct (PyStr.isspace c); [|done].
  pose proof (take_while_all PyStr.isdigit
                (PyStr.drop_while PyStr.isspace (String c rest))) as Hall.
  destruct (PyStr.take_while _ _) as [|d ds]; [done|].
  intros [= <-]. done.
Qed.

Lemma search_top_some (s digits : string) :
  PyStr.search_top s = Some digits →
  PyStr.contains "top" s = true
  ∧ digits ≠ "" ∧ all_chars PyStr.isdigit digits = true.
Proof.
  induction s as [|c s IH].
  - simpl. done.
  - cbn [PyStr.search_top PyStr.contains].
    destruct (PyStr.match_top_at (String c s)) as [d|] eqn:Hm.
    + intros [= <-]. apply match_top_at_some in Hm as (-> & ? & ?). done.
    + intros (-> & ? & ?)%IH. by rewrite orb_true_r.
Qed.

Lemma first_found_kept {A : Type} (g : A → option string) (items : list A)
    (t : string) :
  foldl (λ found item,
           match found with Some t' => Some t' | None => g item end)
        (Some t) items = Some t.
Proof. induction items as [|item items IH]; [done|]. apply IH. Qed.

Lemma never_found {A : Type} (items : list A) :
  foldl (λ (found : option string) (_ : A),
           match found with Some t' => Some t' | None => None end)
        None items = None.
Proof. induction items as [|item items IH]; [done|]. apply IH. Qed.

(** X18.  The rule-based parser always names the first enabled table: the
    words [product], [customer] and [usage] in the question, and the names
    of the other tables, have no effect on the choice. *)
Theorem X18_fallback_takes_first_table (p : AIParser.parser)
    (user_question table_key : string) (info : AIParser.table_info)
    (others : list (string * AIParser.table_info)) :
  AIParser.get_enabled_tables (AIParser.schema p) = (table_key, info) :: others →
  AIParser.fallback_rule_based_parsing p user_question !! "table_name"
  = Some (PStr (AIParser.name info)).
Proof.
  intros Htables. unfold AIParser.fallback_rule_based_parsing. rewrite Htables.
  rewrite lookup_insert_eq. do 2 f_equal. cbn [foldl fst snd].
  destruct (existsb _ _) eqn:Hany.
  - rewrite (first_found_kept (λ kv, Some (AIParser.name kv.2))).
    by destruct (String.eqb _ _).
  - by rewrite never_found.
Qed.

Lemma X18_fallback_takes_first_table_witness :
  PyStr.contains "customer" (PyStr.lower "Top customers by region") = true
  ∧ AIParser.fallback_rule_based_parsing two_table_parser
      "Top customers by region" !! "table_name" = Some (PStr "ProductUsage").
Proof.
  split; [reflexivity|].
  exact (X18_fallback_takes_first_table two_table_parser
           "Top customers by region" _ _ _ eq_refl).
Defined.

(** X19.  Whenever the rule-based parser sets a limit clause, the clause is
    [TOP] followed by a non-empty run of digits, and the ordering
    [ORDER BY RequestCount DESC] is set with it. *)
Theorem X19_limit_comes_with_ordering (p : AIParser.parser)
    (user_question limit_clause : string) :
  AIParser.fallback_rule_based_parsing p user_question !! "limit_clause"
    = Some (PStr limit_clause) →
  limit_clause ≠ "" →
  AIParser.fallback_rule_based_parsing p user_question !! "order_clause"
    = Some (PStr "ORDER BY RequestCount DESC")
  ∧ ∃ digits, limit_clause = "TOP " +:+ digits
              ∧ digits ≠ "" ∧ all_chars PyStr.isdigit digits = true.
Proof.
  unfold AIParser.fallback_rule_based_parsing.
  destruct (AIParser.get_enabled_tables (AIParser.schema p)) as [|first rest].
  - unfold AIParser.error_dict. by rewrite lookup_singleton_ne.
  - rewrite !lookup_insert_ne, lookup_insert_eq by done.
    destruct (PyStr.search_top (PyStr.lower user_question)) as [digits|] eqn:Hs;
      intros [= <-] Hne; [|done].
    apply search_top_some in Hs as (Htop & Hd & Hall).
    rewrite (lookup_insert_ne _ "table_name"), (lookup_insert_ne _ "columns"),
      (lookup_insert_ne _ "where_clause"), lookup_insert_eq by done.
    rewrite Htop. split; [done|]. by exists digits.
Qed.

Lemma X19_limit_comes_with_ordering_witness :
  AIParser.fallback_rule_based_parsing unsure_parser "Show the TOP  25 products"
    !! "limit_clause" = Some (PStr "TOP 25")
  ∧ AIParser.fallback_rule_based_parsing unsure_parser "Show the TOP  25 products"
      !! "order_clause" = Some (PStr "ORDER BY RequestCount DESC").
Proof.
  split; [reflexivity|].
  apply (X19_limit_comes_with_ordering unsure_parser "Show the TOP  25 products"
           "TOP 25" eq_refl).
  discriminate.
Defined.

(** X20.  The columns chosen by the rule-based parser are columns of the
    table that the schema returns for the chosen name, at most three of
    them, and at least one when the table has any; when the schema does not
    know the name, the choice is the wildcard. *)
Theorem X20_fallback_columns (p : AIParser.parser) (user_question : string)
    (table_name : string) (cols : list string) :
  AIParser.fallback_rule_based_parsing p user_question !! "table_name"
    = Some (PStr table_name) →
  AIParser.fallback_rule_based_parsing p user_question !! "columns"
    = Some (PStrList cols) →
  match AIParser.get_table_info (AIParser.schema p) table_name with
  | Some info =>
      (∀ col, col ∈ cols → col ∈ AIParser.columns info)
      ∧ (length cols ≤ 3)%nat
      ∧ (AIParser.columns info ≠ [] → cols ≠ [])
  | None => cols = ["*"]
  end.
Proof.
  unfold AIParser.fallback_rule_based_parsing.
  destruct (AIParser.get_enabled_tables (AIParser.schema p)) as [|first rest].
  - unfold AIParser.error_dict. by rewrite lookup_singleton_ne.
  - rewrite lookup_insert_eq, lookup_insert_ne, lookup_insert_eq by done.
    intros [= <-]. destruct (AIParser.get_table_info _ _) as [info|];
      intros [= <-]; [|done].
    destruct (filter _ _) as [|c cs] eqn:Hf.
    + split; [|split].
      * intros col Hcol. rewrite <-(take_drop 3 (AIParser.columns info)).
        apply elem_of_app. by left.
      * rewrite length_take. lia.
      * by destruct (AIParser.columns info).
    + split; [|split; [|done]].
      * intros col Hcol. rewrite <-Hf in Hcol.
        by apply list_elem_of_filter in Hcol as [? _].
      * rewrite <-Hf. etransitivity; [apply length_filter|]. done.
Qed.

Lemma X20_fallback_columns_witness :
  AIParser.fallback_rule_based_parsing two_table_parser "anything"
    !! "columns" = Some (PStrList ["Month"; "Product"; "RequestCount"])
  ∧ ∀ col, col ∈ ["Month"; "Product"; "RequestCount"] →
           col ∈ AIParser.columns usage_table.
Proof.
  split; [reflexivity|].
  exact (proj1 (X20_fallback_columns two_table_parser "anything" "ProductUsage"
                  ["Month"; "Product"; "RequestCount"] eq_refl eq_refl)).
Defined.
(** ** Keys with capital letters *)

(** X21.  An entry whose stored key has capital letters (as a configuration
    file may have it) is out of reach of [add_alias], which writes under the
    lowercased key: after adding the same alias with new targets the old
    entry is still there, and its targets are still matched by every text
    that contains the alias, next to the new ones. *)
Theorem X21_capital_key_survives (m : Universal.mapper)
    (category key alias query_text : string) (old : jvalue)
    (targets : list string) (target : string) :
  Universal.get_aliases_for_category m category !! key = Some old →
  PyStr.lower key ≠ key →
  PyStr.lower alias = PyStr.lower key →
  PyStr.contains (PyStr.lower key) (PyStr.lower query_text) = true →
  target ∈ iter_value old ∨ target ∈ targets →
  let m' := Universal.add_alias m category alias targets false in
  Universal.get_aliases_for_category m' category !! key = Some old
  ∧ target ∈ Universal.find_matches_by_category m' query_text category None.
Proof.
  intros Hold Hcap Halias Hc Ht m'.
  assert (Universal.get_aliases_for_category m' category
          = <[PyStr.lower alias := JList targets]>
              (Universal.get_aliases_for_category m category)) as Hcat
    by (apply add_alias_category; by left).
  assert (Universal.get_aliases_for_category m' category !! key = Some old) as Hkept.
  { rewrite Hcat, lookup_insert_ne; [done|]. by rewrite Halias. }
  split; [exact Hkept|].
  unfold Universal.find_matches_by_category. rewrite elem_of_alias_matches.
  right. destruct Ht as [Ht|Ht].
  - by exists key, old.
  - exists (PyStr.lower alias), (JList targets).
    rewrite Hcat, lookup_insert_eq, lower_idemp, Halias. done.
Qed.

Lemma X21_capital_key_survives_witness :
  Universal.get_aliases_for_category
    (Universal.add_alias capital_mapper "product_aliases" "js" ["Rust"] false)
    "product_aliases" !! "JS" = Some (JList ["JavaScript"])
  ∧ "JavaScript" ∈ Universal.find_matches_by_category
                     (Universal.add_alias capital_mapper "product_aliases" "js"
                        ["Rust"] false)
                     "js usage" "product_aliases" None.
Proof.
  apply (X21_capital_key_survives capital_mapper "product_aliases" "JS" "js"
           "js usage" (JList ["JavaScript"]) ["Rust"] "JavaScript").
  - reflexivity.
  - discriminate.
  - reflexivity.
  - reflexivity.
  - left. apply elem_of_cons. by left.
Defined.
(** ** The local-model parser *)

Example find_braced_sample :
  LocalAI.find_braced None "a {x} b {y {z} w} {open"
  = ["{x}"; "{y {z}"].
Proof. reflexivity. Qed.

Lemma fill_missing_kept (result : gmap string pyval) (key : string) (v : pyval) :
  result !! key = Some v → LocalAI.fill_missing result !! key = Some v.
Proof.
  unfold LocalAI.fill_missing. generalize LocalAI.required_fields.
  intros fields. revert result.
  induction fields as [|field fields IH]; intros result Hv; [done|].
  cbn [foldl]. apply IH.
  destruct (result !! field) eqn:Hf; [done|].
  rewrite lookup_insert_ne; [done|]. intros ->. congruence.
Qed.

Lemma validate_result_shape (p : LocalAI.parser) (result cleaned : gmap string pyval)
    (user_question : string) :
  LocalAI.validate_and_clean_result p result user_question = inr cleaned →
  AIParser.get_enabled_tables (LocalAI.schema p) ≠ [] →
  (∃ table_key info,
     (table_key, info) ∈ AIParser.get_enabled_tables (LocalAI.schema p)
     ∧ cleaned !! "table_name" = Some (PStr (AIParser.name info)))
  ∧ (∃ w, cleaned !! "where_clause" = Some (PStr w) ∧ PyStr.strip w ≠ "").
Proof.
  unfold LocalAI.validate_and_clean_result.
  set (filled := LocalAI.fill_missing result).
  destruct (AIParser.get_enabled_tables (LocalAI.schema p)) as [|first rest] eqn:Ht;
    [done|].
  set (placed := if AIParser.table_found _ _ then filled else _).
  destruct (AIParser.clean_where placed) as [e|with_where] eqn:Hclean; [done|].
  destruct (clean_where_result _ _ Hclean) as [(w & Hw & Hblank) Hsame].
  set (with_columns := match with_where !! "columns" with
                       | Some (PStr cols) => _
                       | _ => with_where
                       end).
  assert (∀ key, key ≠ "columns" → with_columns !! key = with_where !! key)
    as Hcols.
  { intros key Hkey. unfold with_columns.
    destruct (with_where !! "columns") as [[| | | |cols|]|]; try done.
    by rewrite lookup_insert_ne. }
  destruct (LocalAI.model p) as [ai_model|]; [|done].
  intros [= <-] _. split.
  - assert (∃ table_key info,
              (table_key, info) ∈ first :: rest
              ∧ placed !! "table_name" = Some (PStr (AIParser.name info)))
      as (table_key & info & Hin & Hname).
    { unfold placed.
      destruct (AIParser.table_found _ _) eqn:Hfound.
      - unfold AIParser.table_found in Hfound. rewrite Ht in Hfound.
        destruct (filled !! "table_name") as [[| | | |t|]|] eqn:Hn; try done.
        cbn [default] in Hfound.
        apply existsb_exists in Hfound as ([key info] & Hin & Heq).
        apply String.eqb_eq in Heq. simpl in Heq. subst t.
        exists key, info. split; [by apply list_elem_of_In|done].
      - destruct first as [key info]. exists key, info.
        split; [by left|]. cbv zeta. cbn [snd].
        destruct (truthy _);
          [by rewrite lookup_insert_eq
          |by rewrite lookup_insert_ne, lookup_insert_eq]. }
    exists table_key, info. split; [done|].
    by rewrite !lookup_insert_ne, Hcols, Hsame.
  - exists w. by rewrite !lookup_insert_ne, Hcols.
Qed.

Lemma local_ai_result_origin (p : LocalAI.parser) (user_question : string) :
  LocalAI.parse_with_ai p user_question !! "error" = None →
  ∃ result, LocalAI.validate_and_clean_result p result user_question
            = inr (LocalAI.parse_with_ai p user_question).
Proof.
  unfold LocalAI.parse_with_ai.
  assert (∀ msg, AIParser.error_dict msg !! "error" ≠ None) as Hdict
    by (intros msg; unfold AIParser.error_dict; by rewrite lookup_singleton_eq).
  destruct (LocalAI.query_local_ai _ _) as [e|response]; [by intros ?%Hdict|].
  destruct (LocalAI.extract_json_from_response p response) as [result|[]];
    [|by intros ?%Hdict].
  destruct (LocalAI.validate_and_clean_result p result user_question) eqn:Hv;
    [by intros ?%Hdict|].
  intros _. by exists result.
Qed.

Lemma local_result_with_tables (p : LocalAI.parser) (user_question : string) :
  AIParser.get_enabled_tables (LocalAI.schema p) ≠ [] →
  let result := LocalAI.parse_user_query p user_question in
  result !! "error" = None
  ∧ (∃ table_key info,
       (table_key, info) ∈ AIParser.get_enabled_tables (LocalAI.schema p)
       ∧ result !! "table_name" = Some (PStr (AIParser.name info)))
  ∧ (∃ w, result !! "where_clause" = Some (PStr w) ∧ PyStr.strip w ≠ "").
Proof.
  intros Htables result. unfold result, LocalAI.parse_user_query.
  destruct (LocalAI.parse_with_ai p user_question !! "error") eqn:Herr.
  - unfold LocalAI.fallback_parsing.
    destruct (AIParser.get_enabled_tables (LocalAI.schema p))
      as [|[key info] rest]; [done|].
    split; [done|]. split.
    + exists key, info. split; [by left|]. by rewrite lookup_insert_eq.
    + by exists "1=1".
  - split; [done|].
    destruct (local_ai_result_origin p user_question Herr) as [raw Hraw].
    by eapply validate_result_shape.
Qed.

(** X22.  With at least one enabled table, the local parser's
    [parse_user_query] always returns a dictionary without an [error]
    entry, whose table is the name of an enabled table and whose
    [where_clause] is a string that is not blank: an answer of the model
    that names an unknown table is moved to the first enabled table rather
    than rejected. *)
Theorem X22_local_result_is_usable (p : LocalAI.parser) (user_question : string) :
  AIParser.get_enabled_tables (LocalAI.schema p) ≠ [] →
  let result := LocalAI.parse_user_query p user_question in
  result !! "error" = None
  ∧ (∃ table_key info,
       (table_key, info) ∈ AIParser.get_enabled_tables (LocalAI.schema p)
       ∧ result !! "table_name" = Some (PStr (AIParser.name info)))
  ∧ (∃ w, result !! "where_clause" = Some (PStr w) ∧ PyStr.strip w ≠ "").
Proof. apply local_result_with_tables. Qed.

Lemma X22_local_result_is_usable_witness :
  AIParser.get_enabled_tables (LocalAI.schema prose_parser) ≠ []
  ∧ LocalAI.parse_user_query prose_parser "orders per month" !! "table_name"
    = Some (PStr "ProductUsage")
  ∧ LocalAI.parse_user_query prose_parser "orders per month" !! "ai_parsed"
    = Some (PBool true)
  ∧ LocalAI.parse_user_query prose_parser "orders per month" !! "error" = None.
Proof.
  assert (AIParser.get_enabled_tables (LocalAI.schema prose_parser) ≠ [])
    as Htables by discriminate.
  split; [exact Htables|]. split; [reflexivity|]. split; [reflexivity|].
  exact (proj1 (X22_local_result_is_usable prose_parser "orders per month"
                  Htables)).
Defined.

(** X23.  The local parser's [parse_user_query] returns a dictionary with
    an [error] entry exactly when the schema has no enabled table and the
    AI attempt itself ended in an error; with no enabled table and a
    successful attempt the model's answer is returned as it is. *)
Theorem X23_local_error_cases (p : LocalAI.parser) (user_question : string) :
  (is_Some (LocalAI.parse_user_query p user_question !! "error")
   ↔ AIParser.get_enabled_tables (LocalAI.schema p) = []
     ∧ is_Some (LocalAI.parse_with_ai p user_question !! "error"))
  ∧ (LocalAI.parse_with_ai p user_question !! "error" = None →
     LocalAI.parse_user_query p user_question
     = LocalAI.parse_with_ai p user_question).
Proof.
  split.
  - split.
    + intros Herr.
      destruct (AIParser.get_enabled_tables (LocalAI.schema p)) as [|t ts] eqn:Ht.
      * split; [done|]. revert Herr. unfold LocalAI.parse_user_query.
        destruct (LocalAI.parse_with_ai p user_question !! "error") eqn:Hai;
          [by eexists|]. rewrite Hai. by intros [].
      * exfalso.
        assert (AIParser.get_enabled_tables (LocalAI.schema p) ≠ []) as Hne
          by (by rewrite Ht).
        destruct (local_result_with_tables p user_question Hne) as [Hno _].
        rewrite Hno in Herr. by destruct Herr.
    + intros [Hempty [x Hx]]. unfold LocalAI.parse_user_query. rewrite Hx.
      unfold LocalAI.fallback_parsing. rewrite Hempty.
      unfold AIParser.error_dict. by rewrite lookup_singleton_eq.
  - intros Hno. unfold LocalAI.parse_user_query. by rewrite Hno.
Qed.
(** ** Columns given as one string *)

Lemma split_comma_piece (x s : string) :
  all_chars (λ c, negb (Ascii.eqb c ",")) x = true →
  LocalAI.split_comma (x +:+ String "," s) = x :: LocalAI.split_comma s.
Proof.
  induction x as [|c x IH]; [done|].
  cbn [all_chars]. intros [Hc Hx]%andb_true_iff.
  change (String c x +:+ String "," s) with (String c (x +:+ String "," s)).
  cbn [LocalAI.split_comma]. apply negb_true_iff in Hc. rewrite Hc.
  by rewrite IH.
Qed.

Lemma split_comma_single (x : string) :
  all_chars (λ c, negb (Ascii.eqb c ",")) x = true →
  LocalAI.split_comma x = [x].
Proof.
  induction x as [|c x IH]; [done|].
  cbn [all_chars]. intros [Hc Hx]%andb_true_iff.
  cbn [LocalAI.split_comma]. apply negb_true_iff in Hc. rewrite Hc.
  by rewrite IH.
Qed.

Lemma strip_after_space (s : string) : PyStr.strip (String " " s) = PyStr.strip s.
Proof. reflexivity. Qed.

Lemma no_comma_app (pre x : string) :
  all_chars (λ c, negb (Ascii.eqb c ",")) pre = true →
  all_chars (λ c, negb (Ascii.eqb c ",")) x = true →
  all_chars (λ c, negb (Ascii.eqb c ",")) (pre +:+ x) = true.
Proof.
  intros Hpre Hx. induction pre as [|c pre IH]; [done|].
  cbn [all_chars] in Hpre. apply andb_true_iff in Hpre as [Hc Hpre].
  change (String c pre +:+ x) with (String c (pre +:+ x)).
  cbn [all_chars]. by rewrite Hc, IH.
Qed.

Lemma split_strip_join_from (rest : list string) (x pre : string) :
  plain_name x → Forall plain_name rest →
  all_chars (λ c, negb (Ascii.eqb c ",")) pre = true →
  PyStr.strip <$> LocalAI.split_comma (pre +:+ PyStr.join ", " (x :: rest))
  = PyStr.strip (pre +:+ x) :: rest.
Proof.
  revert x pre. induction rest as [|y rest IH]; intros x pre Hx Hrest Hpre.
  - cbn [PyStr.join]. rewrite split_comma_single; [done|].
    apply no_comma_app; [done|]. by destruct Hx as (_ & ? & _).
  - change (PyStr.join ", " (x :: y :: rest))
      with (x +:+ String "," (" " +:+ PyStr.join ", " (y :: rest))).
    rewrite <-str_app_assoc, split_comma_piece
      by (apply no_comma_app; [done|]; by destruct Hx as (_ & ? & _)).
    apply Forall_cons in Hrest as [Hy Hrest].
    rewrite fmap_cons, (IH y " " Hy Hrest eq_refl).
    change (" " +:+ y) with (String " " y).
    rewrite strip_after_space. by destruct Hy as (_ & _ & ->).
Qed.

(** Splitting at the commas and stripping undoes [", ".join]. *)
Lemma split_strip_join (names : list string) :
  names ≠ [] → Forall plain_name names →
  PyStr.strip <$> LocalAI.split_comma (PyStr.join ", " names) = names.
Proof.
  intros Hne Hall. destruct names as [|x rest]; [done|].
  apply Forall_cons in Hall as [Hx Hrest].
  change (PyStr.join ", " (x :: rest)) with ("" +:+ PyStr.join ", " (x :: rest)).
  rewrite (split_strip_join_from rest x "" Hx Hrest eq_refl).
  change ("" +:+ x) with x. by destruct Hx as (_ & _ & ->).
Qed.

Lemma join_plain_nonempty (names : list string) :
  names ≠ [] → Forall plain_name names → PyStr.join ", " names ≠ "".
Proof.
  intros Hne Hall. destruct names as [|x [|y rest]]; [done|..];
    apply Forall_cons in Hall as [[Hx _] _].
  - done.
  - destruct x; [done|]. discriminate.
Qed.

(** X24.  When the model gives the columns as one string of names
    separated by a comma and a space, the names being non-empty, free of
    commas and of surrounding white space, a successful
    [validate_and_clean_result] returns exactly the list of those names. *)
Theorem X24_column_string_becomes_list (p : LocalAI.parser)
    (result cleaned : gmap string pyval) (user_question : string)
    (names : list string) :
  names ≠ [] → Forall plain_name names →
  result !! "columns" = Some (PStr (PyStr.join ", " names)) →
  LocalAI.validate_and_clean_result p result user_question = inr cleaned →
  cleaned !! "columns" = Some (PStrList names).
Proof.
  intros Hne Hall Hcols.
  unfold LocalAI.validate_and_clean_result.
  set (filled := LocalAI.fill_missing result).
  assert (filled !! "columns" = Some (PStr (PyStr.join ", " names))) as Hfilled
    by (by apply fill_missing_kept).
  set (placed := match AIParser.get_enabled_tables (LocalAI.schema p) with
                 | [] => filled
                 | first :: _ => _
                 end).
  assert (placed !! "columns" = Some (PStr (PyStr.join ", " names))) as Hplaced.
  { unfold placed.
    destruct (AIParser.get_enabled_tables (LocalAI.schema p)) as [|first rest];
      [done|].
    destruct (AIParser.table_found _ _); [done|]. cbv zeta.
    rewrite lookup_insert_ne, Hfilled by done.
    cbn [default from_option id truthy].
    destruct (String.eqb (PyStr.join ", " names) "") eqn:He.
    - apply String.eqb_eq in He. by apply join_plain_nonempty in He.
    - cbn [negb]. by rewrite lookup_insert_ne. }
  destruct (AIParser.clean_where placed) as [e|with_where] eqn:Hclean; [done|].
  destruct (clean_where_result _ _ Hclean) as [_ Hsame].
  rewrite (Hsame "columns"), Hplaced by done.
  destruct (LocalAI.model p) as [ai_model|]; [|done].
  intros [= <-]. rewrite !lookup_insert_ne, lookup_insert_eq by done.
  by rewrite split_strip_join.
Qed.

Lemma X24_column_string_becomes_list_witness :
  LocalAI.parse_user_query prose_parser "orders per month" !! "columns"
  = Some (PStrList ["Month"; "RequestCount"]).
Proof.
  assert (Forall plain_name ["Month"; "RequestCount"]) as Hplain.
  { repeat constructor; discriminate. }
  assert (∃ raw, LocalAI.validate_and_clean_result prose_parser raw
                   "orders per month"
                 = inr (LocalAI.parse_user_query prose_parser "orders per month")
                 ∧ raw !! "columns" = Some (PStr (PyStr.join ", " ["Month"; "RequestCount"])))
    as (raw & Hraw & Hcols).
  { exists prose_reply. split; reflexivity. }
  apply (X24_column_string_becomes_list prose_parser raw _ "orders per month"
           ["Month"; "RequestCount"]); [discriminate|exact Hplain|exact Hcols|exact Hraw].
Defined.
